(** * The worker manager of [ts/model_service_worker_manager.py]

    A shallow embedding of [TorchModelServiceWorkerManager]: the three
    command-level operations [load_model], [scale_up], [scale_down] and
    the connection loop of [handle_connection], followed by the
    properties of the control plane that the specification states.

    Conventions of the embedding.
    - A Python [bytes] object is a [string] (one [ascii] per byte).
    - A Python [str] is the [string] holding its UTF-8 encoding, so that
      [b.decode("utf-8")] is a validity check, concatenation is
      concatenation and the substring test [x in y] is the substring
      test on the encodings (UTF-8 is self-synchronising).
    - A [dict] is a [gmap] with [string] keys.
    - A Python exception is a value of [exn]; code that may raise returns
      an [outcome].
    - [logging] and [traceback] calls have no effect on control flow or
      on the state and are left out. *)

From Stdlib Require Import ZArith Ascii String.
From stdpp Require Import base option gmap strings list fin_maps pretty.

Local Open Scope string_scope.
Local Open Scope Z_scope.

Set Default Proof Using "Type".

(** ** Exceptions and outcomes *)

Inductive exn : Type :=
  | KeyError (key : string)
  | UnicodeDecodeError
  | AttributeError (attr : string)
  | TypeError
  | ValueError (msg : string)
  | MemoryError
  | FileNotFoundError (path : string)
  | RuntimeError (msg : string)
  | Exception (msg : string)
  | OtherError (name : string).

Inductive outcome (A : Type) : Type :=
  | Return (a : A)
  | Raise (e : exn).
Arguments Return {A} a.
Arguments Raise {A} e.

#[global] Instance outcome_ret : MRet outcome := @Return.
#[global] Instance outcome_bind : MBind outcome := fun A B f m =>
  match m with
  | Return a => f a
  | Raise e => Raise e
  end.
#[global] Instance outcome_fmap : FMap outcome := fun A B f m =>
  match m with
  | Return a => Return (f a)
  | Raise e => Raise e
  end.

Definition returns {A} (m : outcome A) : Prop := exists a, m = Return a.
Definition raises {A} (m : outcome A) : Prop := exists e, m = Raise e.

(** ** Bytes, text and the built-ins the manager calls *)

Definition byte_val (c : ascii) : N := N_of_ascii c.

Definition in_range (lo hi : N) (c : ascii) : bool :=
  ((lo <=? byte_val c) && (byte_val c <=? hi))%N.

Definition continuation : ascii -> bool := in_range 0x80 0xBF.

(** Second byte of a three-byte sequence: no overlong forms after [E0],
    no surrogates after [ED]. *)
Definition second_of_3 (c0 c1 : ascii) : bool :=
  if (byte_val c0 =? 0xE0)%N then in_range 0xA0 0xBF c1
  else if (byte_val c0 =? 0xED)%N then in_range 0x80 0x9F c1
  else continuation c1.

(** Second byte of a four-byte sequence: no overlong forms after [F0],
    nothing above U+10FFFF after [F4]. *)
Definition second_of_4 (c0 c1 : ascii) : bool :=
  if (byte_val c0 =? 0xF0)%N then in_range 0x90 0xBF c1
  else if (byte_val c0 =? 0xF4)%N then in_range 0x80 0x8F c1
  else continuation c1.

Fixpoint utf8_valid (s : string) : bool :=
  match s with
  | EmptyString => true
  | String c0 r =>
      if in_range 0x00 0x7F c0 then utf8_valid r
      else if in_range 0xC2 0xDF c0 then
        match r with
        | String c1 r1 => continuation c1 && utf8_valid r1
        | _ => false
        end
      else if in_range 0xE0 0xEF c0 then
        match r with
        | String c1 (String c2 r2) =>
            second_of_3 c0 c1 && continuation c2 && utf8_valid r2
        | _ => false
        end
      else if in_range 0xF0 0xF4 c0 then
        match r with
        | String c1 (String c2 (String c3 r3)) =>
            second_of_4 c0 c1 && continuation c2 && continuation c3
            && utf8_valid r3
        | _ => false
        end
      else false
  end.

(** [b.decode("utf-8")] (strict error handler). *)
Definition decode_utf8 (b : string) : outcome string :=
  if utf8_valid b then Return b else Raise UnicodeDecodeError.

(** The values a decoded payload can hold: the codec hands over byte
    strings; the docstring of [load_model] also allows integers and
    [None]. *)
Inductive value : Type :=
  | VBytes (b : string)
  | VInt (n : Z)
  | VNone.

(** [v.decode("utf-8")]: only [bytes] has the method. *)
Definition decode (v : value) : outcome string :=
  match v with
  | VBytes b => decode_utf8 b
  | _ => Raise (AttributeError "decode")
  end.

(** Truth value of [v] in a condition. *)
Definition truthy (v : value) : bool :=
  match v with
  | VBytes b => negb (bool_decide (b = ""))
  | VInt n => negb (n =? 0)
  | VNone => false
  end.

Definition is_space (c : ascii) : bool :=
  in_range 9 13 c || (byte_val c =? 32)%N.

Definition is_digit (c : ascii) : bool := in_range 48 57 c.

Definition digit_val (c : ascii) : Z := Z.of_N (byte_val c) - 48.

Fixpoint lstrip (s : string) : string :=
  match s with
  | String c r => if is_space c then lstrip r else s
  | EmptyString => s
  end.

Fixpoint all_space (s : string) : bool :=
  match s with
  | String c r => is_space c && all_space r
  | EmptyString => true
  end.

(** Decimal digits with single underscores between them, then optional
    trailing white space; [after_digit] says whether the previous
    character was a digit. *)
Fixpoint parse_digits (acc : Z) (after_digit : bool) (s : string) : option Z :=
  match s with
  | EmptyString => if after_digit then Some acc else None
  | String c r =>
      if is_digit c then parse_digits (10 * acc + digit_val c) true r
      else if (byte_val c =? 95)%N then
        if after_digit then parse_digits acc false r else None
      else if is_space c && after_digit && all_space r then Some acc
      else None
  end.

Definition int_of_bytes (b : string) : option Z :=
  match lstrip b with
  | String c r =>
      if (byte_val c =? 45)%N then Z.opp <$> parse_digits 0 false r
      else if (byte_val c =? 43)%N then parse_digits 0 false r
      else parse_digits 0 false (String c r)
  | EmptyString => None
  end.

(** The built-in [int(v)]. *)
Definition int (v : value) : outcome Z :=
  match v with
  | VBytes b =>
      match int_of_bytes b with
      | Some n => Return n
      | None => Raise (ValueError "invalid literal for int() with base 10")
      end
  | VInt n => Return n
  | VNone => Raise TypeError
  end.

Fixpoint starts_with (p s : string) : bool :=
  match p, s with
  | EmptyString, _ => true
  | String a p', String b s' => bool_decide (a = b) && starts_with p' s'
  | String _ _, EmptyString => false
  end.

(** The substring test [p in s]. *)
Fixpoint contains (p s : string) : bool :=
  starts_with p s ||
  match s with
  | String _ s' => contains p s'
  | EmptyString => false
  end.

Definition hex_digit (n : N) : ascii :=
  match String.get (N.to_nat n) "0123456789abcdef" with
  | Some c => c
  | None => "0"%char
  end.

Definition double_quote : ascii := ascii_of_N 34.

Fixpoint has_char (c : ascii) (s : string) : bool :=
  match s with
  | String d r => bool_decide (c = d) || has_char c r
  | EmptyString => false
  end.

Definition escape_byte (quote c : ascii) : string :=
  if bool_decide (c = quote) || bool_decide (c = "\"%char)
  then String "\" (String c "")
  else if (byte_val c =? 9)%N then "\t"
  else if (byte_val c =? 10)%N then "\n"
  else if (byte_val c =? 13)%N then "\r"
  else if (byte_val c <? 32)%N || (127 <=? byte_val c)%N then
    String "\" (String "x" (String (hex_digit (byte_val c / 16))
                             (String (hex_digit (byte_val c mod 16)) "")))
  else String c "".

Fixpoint escape_bytes (quote : ascii) (b : string) : string :=
  match b with
  | String c r => escape_byte quote c +:+ escape_bytes quote r
  | EmptyString => ""
  end.

(** [repr(b)] of a [bytes] object, as [str.format] prints it. *)
Definition repr_bytes (b : string) : string :=
  let quote := if has_char "'" b && negb (has_char double_quote b)
               then double_quote else "'"%char in
  String "b" (String quote (escape_bytes quote b +:+ String quote "")).

(** [d[k]] on a dictionary. *)
Definition getitem {V} (d : gmap string V) (k : string) : outcome V :=
  match d !! k with
  | Some v => Return v
  | None => Raise (KeyError k)
  end.

(** [k in d] on a dictionary. *)
Definition has_key {V} (d : gmap string V) (k : string) : bool :=
  bool_decide (is_Some (d !! k)).

(** ** Data model *)

(** [service.context.metrics]: only its [store] is used. *)
Record Metrics := { store : list string }.

(** [service.context]: the manifest is a dictionary of sections, each a
    dictionary itself, or [None]. *)
Record Context := {
  manifest : option (gmap string (gmap string string));
  metrics : option Metrics
}.

(** What the model loader returns. *)
Record Service := { context : option Context }.

(** The tuple [(model_name, model_dir, handler, gpu, batch_size)]. *)
Definition ServiceArgs : Type :=
  string * string * option string * option Z * option Z.

(** A decoded payload: field name to value. *)
Abbreviation Request := (gmap string value).

(** The object [TorchModelServiceWorker(...)] builds, whose [run_server]
    is the entry point of the spawned process. *)
Record Worker := {
  w_sock_type : string;
  w_sock_name : string;
  w_host : string;
  w_port : string;
  w_service : option Service;
  w_service_args : option ServiceArgs;
  w_fifo_path : string
}.

(** An entry [{"worker": p, "fifo": fifo_path}] of [self.workers]; the
    process object [p] is its index in the table of started processes. *)
Record WorkerRecord := { worker : nat; fifo : string }.

Inductive response : Type :=
  | LoadModelResponse (code : Z) (msg : string)
  | ScaleModelResponse (code : Z) (msg : string).

Inductive event : Type :=
  | Send (resp : response)
  | EmitMetrics (metrics_store : list string)
  | ProfilerDisable
  | ProfilerDumpStats (path : string)
  | ProfilerEnable.

(** The manager ([workers] is [self.workers]) together with the part of
    the operating system it acts on: files, started processes, the
    handles on which [terminate()] was called, elapsed seconds of
    [time.sleep], the start method of the multiprocessing context once
    set, and what went out on the socket and to the metrics and profiling
    collaborators, oldest first. *)
Record State := {
  workers : gmap string WorkerRecord;
  fs : gmap string string;
  procs : list Worker;
  terminated : gset nat;
  clock : nat;
  start_method : option string;
  trace : list event
}.

Definition set_workers
    (f : gmap string WorkerRecord -> gmap string WorkerRecord) (st : State)
    : State :=
  {| workers := f (workers st); fs := fs st; procs := procs st;
     terminated := terminated st; clock := clock st;
     start_method := start_method st; trace := trace st |}.

Definition set_fs (f : gmap string string -> gmap string string) (st : State)
    : State :=
  {| workers := workers st; fs := f (fs st); procs := procs st;
     terminated := terminated st; clock := clock st;
     start_method := start_method st; trace := trace st |}.

Definition set_procs (f : list Worker -> list Worker) (st : State) : State :=
  {| workers := workers st; fs := fs st; procs := f (procs st);
     terminated := terminated st; clock := clock st;
     start_method := start_method st; trace := trace st |}.

Definition set_terminated (f : gset nat -> gset nat) (st : State) : State :=
  {| workers := workers st; fs := fs st; procs := procs st;
     terminated := f (terminated st); clock := clock st;
     start_method := start_method st; trace := trace st |}.

Definition set_clock (f : nat -> nat) (st : State) : State :=
  {| workers := workers st; fs := fs st; procs := procs st;
     terminated := terminated st; clock := f (clock st);
     start_method := start_method st; trace := trace st |}.

Definition set_start_method (f : option string -> option string) (st : State)
    : State :=
  {| workers := workers st; fs := fs st; procs := procs st;
     terminated := terminated st; clock := clock st;
     start_method := f (start_method st); trace := trace st |}.

Definition set_trace (f : list event -> list event) (st : State) : State :=
  {| workers := workers st; fs := fs st; procs := procs st;
     terminated := terminated st; clock := clock st;
     start_method := start_method st; trace := f (trace st) |}.

(** ** Stateful code that may raise

    A raised exception keeps the state reached so far: nothing the
    manager did before the exception is undone. *)

Definition M (A : Type) : Type := State -> outcome A * State.

Definition ret {A} (a : A) : M A := fun st => (Return a, st).

Definition bind {A B} (m : M A) (f : A -> M B) : M B := fun st =>
  match m st with
  | (Return a, st') => f a st'
  | (Raise e, st') => (Raise e, st')
  end.

Definition lift {A} (o : outcome A) : M A := fun st => (o, st).

Definition raise {A} (e : exn) : M A := fun st => (Raise e, st).

Definition get : M State := fun st => (Return st, st).

Definition modify (f : State -> State) : M unit := fun st => (Return tt, f st).

(** [try: m  except: h]. *)
Definition try_except {A} (m : M A) (h : exn -> M A) : M A := fun st =>
  match m st with
  | (Return a, st') => (Return a, st')
  | (Raise e, st') => h e st'
  end.

Declare Scope manager_scope.
Delimit Scope manager_scope with M.
Notation "x <- m ;; k" := (bind m (fun x => k))
  (at level 100, m at next level, right associativity) : manager_scope.
Notation "m ;;; k" := (bind m (fun _ => k))
  (at level 100, right associativity) : manager_scope.

Local Open Scope manager_scope.

(** ** The operations of the manager *)

(** [BENCHMARK = os.getenv('TS_BENCHMARK')] followed by
    [BENCHMARK = BENCHMARK in ['True', 'true', 'TRUE']]. *)
Definition BENCHMARK (ts_benchmark : option string) : bool :=
  match ts_benchmark with
  | Some v => bool_decide (v ∈ ["True"; "true"; "TRUE"])
  | None => false
  end.

(** The readiness sentinel. *)
Definition sentinel : string := "Torch worker started.".

(** [create_fifo(file_name)]: remove the file if it exists, then create
    it empty. The file system is a flat map from path to text; removing,
    creating, starting a process and signalling one always succeed. *)
Definition create_fifo (file_name : string) : M unit :=
  modify (set_fs (fun files =>
    <[file_name := ""]> (if bool_decide (is_Some (files !! file_name))
                         then delete file_name files else files))).

(** [p = mp.Process(target=worker.run_server); p.start()]: the handle of
    the new process is its index in [procs]. *)
Definition start_process (w : Worker) : M nat := fun st =>
  (Return (length (procs st)), set_procs (fun ps => (ps ++ [w])%list) st).

(** [p.terminate()]: the request is recorded in [terminated]. *)
Definition terminate (p : nat) : M unit :=
  modify (set_terminated (fun ps => {[p]} ∪ ps)).

(** [with open(path, 'r') as f: ... f.read()]. *)
Definition read_file (path : string) : M string := fun st =>
  match fs st !! path with
  | Some text => (Return text, st)
  | None => (Raise (FileNotFoundError path), st)
  end.

(** [cl_socket.send(resp)]. *)
Definition send (resp : response) : M unit :=
  modify (set_trace (fun t => (t ++ [Send resp])%list)).

Definition emit (e : event) : M unit :=
  modify (set_trace (fun t => (t ++ [e])%list)).

(** [self.scale_down(scale_down_request)]. *)
Definition scale_down (scale_down_request : Request) : M (string * Z) :=
  try_except
    (port <- lift (getitem scale_down_request "port" ≫= decode);;
     st <- get;;
     record <- lift (getitem (workers st) port);;
     let p := worker record in
     let fifo_path := fifo record in
     terminate p;;;
     ret ("scaled down", 200))
    (fun e =>
       (* the handler logs, then re-raises; the [return] that follows
          the [raise] in the source is never reached *)
       raise e).

(** The handler [except MemoryError: return None, None, "System out of
    memory", 507] of [load_model]; any other exception goes through. *)
Definition except_MemoryError
    (r : outcome (option Service * option ServiceArgs * string * Z))
    : outcome (option Service * option ServiceArgs * string * Z) :=
  match r with
  | Raise MemoryError => Return (None, None, "System out of memory", 507)
  | _ => r
  end.

Section Collaborators.

(** [ModelLoaderFactory.get_model_loader().load(model_name, model_dir,
    handler, gpu, batch_size, init_service)]. *)
Variable model_loader_load :
  string -> string -> option string -> option Z -> option Z -> bool ->
  outcome Service.

(** The constructor [TorchModelServiceWorker(sock_type, sock_name, host,
    port, service, service_args, fifo_path)]. *)
Variable TorchModelServiceWorker :
  string -> string -> string -> string -> option Service ->
  option ServiceArgs -> string -> outcome Worker.

(** The contents of the files after the processes outside the manager
    ran for the second that ends in the given state. *)
Variable environment : State -> gmap string string.

(** [time.sleep(1)]. *)
Definition sleep : M unit := fun st =>
  let st1 := set_clock S st in
  (Return tt, set_fs (fun _ => environment st1) st1).

(** [service.context.manifest] and the test that sets [is_eager]. *)
Definition is_eager_of (service : Service) : outcome bool :=
  match context service with
  | None => Raise (AttributeError "manifest")
  | Some ctx =>
      match manifest ctx with
      | None => Return false
      | Some m =>
          if bool_decide (m = ∅) then Return false
          else model ← getitem m "model"; Return (has_key model "modelFile")
      end
  end.

(** The [try] block of [load_model] once the fields are read: the two
    calls of the loader and the choice between the eager and the
    deferred result. *)
Definition load_service (model_name model_dir : string)
    (handler : option string) (gpu batch_size : option Z)
    : outcome (option Service * option ServiceArgs * string * Z) :=
  service ← model_loader_load model_name model_dir handler gpu batch_size false;
  is_eager ← is_eager_of service;
  if is_eager : bool then
    service ← model_loader_load model_name model_dir handler gpu batch_size true;
    Return (Some service, None, "loaded model " +:+ model_name, 200)
  else
    Return (None, Some (model_name, model_dir, handler, gpu, batch_size),
            "loaded model " +:+ model_name, 200).

(** The [try] block of [load_model]. *)
Definition load_model_try (load_model_request : Request)
    : outcome (option Service * option ServiceArgs * string * Z) :=
  model_dir ← getitem load_model_request "modelPath" ≫= decode;
  model_name ← getitem load_model_request "modelName" ≫= decode;
  handler_field ← getitem load_model_request "handler";
  handler ← (if truthy handler_field then Some <$> decode handler_field
             else Return None);
  batch_size ← (if has_key load_model_request "batchSize"
                then Some <$> (getitem load_model_request "batchSize" ≫= int)
                else Return None);
  gpu ← (if has_key load_model_request "gpu"
         then Some <$> (getitem load_model_request "gpu" ≫= int)
         else Return None);
  load_service model_name model_dir handler gpu batch_size.

(** [TorchModelServiceWorkerManager.load_model(load_model_request)]:
    only [MemoryError] is handled. *)
Definition load_model (load_model_request : Request)
    : outcome (option Service * option ServiceArgs * string * Z) :=
  except_MemoryError (load_model_try load_model_request).

(** The polling loop of [scale_up]; the result is the value of [retry]
    when the loop is left. *)
Fixpoint poll (retry : nat) (fifo_path : string) : M nat :=
  match retry with
  | O => ret O
  | S retry' =>
      sleep;;;
      out <- read_file (fifo_path +:+ ".out");;
      if contains sentinel out then ret retry
      else
        err <- read_file (fifo_path +:+ ".err");;
        if contains sentinel err then ret retry
        else poll retry' fifo_path
  end.

(** The [try] block of [scale_up]. *)
Definition scale_up_try (scale_up_request : Request)
    (service : option Service) (service_args : option ServiceArgs)
    : M (string * Z) :=
  sock_name <- lift (getitem scale_up_request "sock_name" ≫= decode);;
  sock_type <- lift (getitem scale_up_request "sock_type" ≫= decode);;
  host <- lift (getitem scale_up_request "host" ≫= decode);;
  port <- lift (getitem scale_up_request "port" ≫= decode);;
  fifo_path <- lift (getitem scale_up_request "fifo_path" ≫= decode);;
  w <- lift (TorchModelServiceWorker sock_type sock_name host port
               service service_args fifo_path);;
  create_fifo (fifo_path +:+ ".out");;;
  create_fifo (fifo_path +:+ ".err");;;
  p <- start_process w;;
  let worker_id := if bool_decide (sock_name = "") then port else sock_name in
  modify (set_workers <[worker_id := {| worker := p; fifo := fifo_path |}]>);;;
  retry <- poll 10 fifo_path;;
  if bool_decide (retry = O) then raise (Exception "Worker not spawned")
  else ret ("scaled up", 200).

(** [self.scale_up(scale_up_request, service, service_args)]: a bare
    [except] turns every exception into the failure pair. *)
Definition scale_up (scale_up_request : Request)
    (service : option Service) (service_args : option ServiceArgs)
    : M (string * Z) :=
  try_except (scale_up_try scale_up_request service service_args)
    (fun _ => ret ("scale up failed", 500)).

(** The two local variables of [handle_connection]. *)
Definition Locals : Type := option Service * option ServiceArgs.

(** ["{} - {}".format(code, result)]. *)
Definition code_and_result (code : Z) (result : string) : string :=
  pretty code +:+ " - " +:+ result.

(** The branch of Scale Down once [self.scale_down(msg)] returned
    [(result, code)]: the pair is replaced by [200, 'DONE'] before the
    response is built. *)
Definition scale_down_response (scaled : string * Z) : M unit :=
  let '(result, code) := scaled in
  let '(code, result) := (200, "DONE") in
  send (ScaleModelResponse code result);;;
  if bool_decide (code ≠ 200)
  then raise (RuntimeError (code_and_result code result))
  else ret tt.

(** The branches on [cmd] of the loop body, from [if BENCHMARK:
    pr.enable()] down to the final [else]. The [elif] chain hangs off
    the test of [BENCHMARK]. *)
Definition dispatch (benchmark : bool) (cmd : string) (msg : Request)
    (locals : Locals) : M Locals :=
  let '(service, service_args) := locals in
  if benchmark then
    emit ProfilerEnable;;;
    ret (service, service_args)
  else if bool_decide (cmd = "L") then
    loaded <- lift (load_model msg);;
    let '(service, service_args, result, code) := loaded in
    send (LoadModelResponse code result);;;
    (if bool_decide (code ≠ 200)
     then raise (RuntimeError (code_and_result code result))
     else ret tt);;;
    ret (service, service_args)
  else if bool_decide (cmd = "U") then
    scaled <- scale_up msg service service_args;;
    let '(result, code) := scaled in
    send (ScaleModelResponse code result);;;
    (if bool_decide (code ≠ 200)
     then raise (RuntimeError (code_and_result code result))
     else ret tt);;;
    ret (service, service_args)
  else if bool_decide (cmd = "D") then
    scaled <- scale_down msg;;
    scale_down_response scaled;;;
    ret (service, service_args)
  else
    raise (ValueError ("Received unknown command: " +:+ repr_bytes cmd)).

(** The last statement of the loop body. *)
Definition emit_metrics_of (service : option Service) : M unit :=
  match service with
  | Some s =>
      match context s with
      | Some ctx =>
          match metrics ctx with
          | Some ms => emit (EmitMetrics (store ms))
          | None => ret tt
          end
      | None => ret tt
      end
  | None => ret tt
  end.

(** What the loop body does before [retrieve_msg]. *)
Definition before_retrieve (benchmark : bool) : M unit :=
  if benchmark then
    emit ProfilerDisable;;;
    emit (ProfilerDumpStats "/tmp/tsPythonProfile.prof")
  else ret tt.

(** What the loop body does once [retrieve_msg] returned [(cmd, msg)]. *)
Definition after_retrieve (benchmark : bool) (cmd : string) (msg : Request)
    (locals : Locals) : M Locals :=
  locals' <- dispatch benchmark cmd msg locals;;
  emit_metrics_of (fst locals');;;
  ret locals'.

(** The [while True] loop of [handle_connection], run on the messages
    that [retrieve_msg] decodes from the socket, in order. The loop has
    no exit: it ends by an exception, or it is left waiting in
    [retrieve_msg] when the input is used up, which the returned locals
    stand for. *)
Fixpoint connection_loop (benchmark : bool) (input : list (string * Request))
    (locals : Locals) : M Locals :=
  before_retrieve benchmark;;;
  match input with
  | [] => ret locals
  | (cmd, msg) :: rest =>
      locals' <- after_retrieve benchmark cmd msg locals;;
      connection_loop benchmark rest locals'
  end.

(** [mp.set_start_method('spawn')]: the context is set once. *)
Definition set_start_method_spawn : M unit := fun st =>
  match start_method st with
  | Some _ => (Raise (RuntimeError "context has already been set"), st)
  | None => (Return tt, set_start_method (fun _ => Some "spawn") st)
  end.

(** [self.handle_connection(cl_socket)]. *)
Definition handle_connection (benchmark : bool)
    (input : list (string * Request)) : M Locals :=
  let service : option Service := None in
  let service_args : option ServiceArgs := None in
  set_start_method_spawn;;;
  connection_loop benchmark input (service, service_args).

End Collaborators.

Arguments sleep environment _ : assert.
Arguments poll environment retry fifo_path _ : assert.

(** ** Vocabulary of the statements *)

(** The manager as [__init__] leaves it, on a machine with no files. *)
Definition initial_state : State :=
  {| workers := ∅; fs := ∅; procs := []; terminated := ∅; clock := 0%nat;
     start_method := None; trace := [] |}.

(** Field [key] of the payload holds the bytes of the text [text]. *)
Definition field_is (req : Request) (key text : string) : Prop :=
  req !! key = Some (VBytes text) /\ utf8_valid text = true.

(** The handler that [load_model] reads off the payload: the key is
    there, and an empty value stands for no handler. *)
Definition handler_is (req : Request) (handler : option string) : Prop :=
  exists v, req !! "handler" = Some v /\
    ((truthy v = false /\ handler = None) \/
     (truthy v = true /\ exists h, decode v = Return h /\ handler = Some h)).

(** The integer that [load_model] reads off an optional field. *)
Definition optional_int_is (req : Request) (key : string) (n : option Z) : Prop :=
  match req !! key with
  | None => n = None
  | Some v => exists z, int v = Return z /\ n = Some z
  end.



(** The key under which [scale_up] registers the worker. *)
Definition worker_id_of (sock_name port : string) : string :=
  if bool_decide (sock_name = "") then port else sock_name.

(** The state in which [scale_up] starts polling: both files created
    empty, the process for [w] started, its record registered. *)
Definition spawned (w : Worker) (sock_name port fifo_path : string)
    (st : State) : State :=
  set_workers
    <[worker_id_of sock_name port :=
        {| worker := length (procs st); fifo := fifo_path |}]>
    (set_procs (fun ps => (ps ++ [w])%list)
       (set_fs (fun files =>
                  <[fifo_path +:+ ".err" := ""]>
                    (<[fifo_path +:+ ".out" := ""]> files)) st)).

(** The state after [k] more seconds of sleep. *)
Definition after_sleeps (environment : State -> gmap string string)
    (k : nat) (st : State) : State :=
  Nat.iter k (fun s => snd (sleep environment s)) st.



Definition is_profiler_event (e : event) : Prop :=
  match e with
  | ProfilerDisable | ProfilerDumpStats _ | ProfilerEnable => True
  | Send _ | EmitMetrics _ => False
  end.

(** ** Sample collaborators and inputs *)

Module Sample.

Definition eager_manifest : gmap string (gmap string string) :=
  {[ "model" := {[ "modelFile" := "model.py";
                   "serializedFile" := "weights.pt" ]} ]}.

Definition scripted_manifest : gmap string (gmap string string) :=
  {[ "model" := {[ "serializedFile" := "model.pt" ]} ]}.

(** A loader that always finds a model with manifest [m]; metrics exist
    once the service is initialised. *)
Definition loader (m : gmap string (gmap string string))
    (model_name model_dir : string) (handler : option string)
    (gpu batch_size : option Z) (init_service : bool) : outcome Service :=
  Return {| context := Some {| manifest := Some m;
                               metrics := if init_service
                                          then Some {| store := [] |}
                                          else None |} |}.

(** A loader that finds no model archive at the given path. *)
Definition loader_no_archive
    (model_name model_dir : string) (handler : option string)
    (gpu batch_size : option Z) (init_service : bool) : outcome Service :=
  Raise (FileNotFoundError model_dir).

(** A loader that runs out of memory. *)
Definition loader_out_of_memory
    (model_name model_dir : string) (handler : option string)
    (gpu batch_size : option Z) (init_service : bool) : outcome Service :=
  Raise MemoryError.

(** A constructor that accepts its arguments. *)
Definition new_worker (sock_type sock_name host port : string)
    (service : option Service) (service_args : option ServiceArgs)
    (fifo_path : string) : outcome Worker :=
  Return {| w_sock_type := sock_type; w_sock_name := sock_name;
            w_host := host; w_port := port; w_service := service;
            w_service_args := service_args; w_fifo_path := fifo_path |}.

(** Workers that never write anything. *)
Definition silent (st : State) : gmap string string := fs st.

(** Workers that write the sentinel to [path] in the third second. *)
Definition ready_in_3 (path : string) (st : State) : gmap string string :=
  if bool_decide (3 <= clock st)%nat then <[path := sentinel]> (fs st)
  else fs st.

Definition load_request : Request :=
  {[ "modelPath" := VBytes "/models/squeezenet";
     "modelName" := VBytes "squeezenet";
     "handler" := VBytes "";
     "batchSize" := VInt 4 ]}.

Definition load_request_no_handler : Request :=
  {[ "modelPath" := VBytes "/models/squeezenet";
     "modelName" := VBytes "squeezenet" ]}.

Definition scale_up_request : Request :=
  {[ "sock_name" := VBytes "/tmp/.ts.sock.9000";
     "sock_type" := VBytes "unix";
     "host" := VBytes "127.0.0.1";
     "port" := VBytes "9000";
     "fifo_path" := VBytes "/tmp/w9000" ]}.

Definition scale_down_request : Request := {[ "port" := VBytes "9000" ]}.

Definition a_worker : Worker :=
  {| w_sock_type := "unix"; w_sock_name := "/tmp/.ts.sock.9000";
     w_host := "127.0.0.1"; w_port := "9000"; w_service := None;
     w_service_args := None; w_fifo_path := "/tmp/w9000" |}.

(** A manager with one worker registered under ["9000"]. *)
Definition one_worker : State :=
  {| workers := {[ "9000" := {| worker := 0%nat; fifo := "/tmp/w9000" |} ]};
     fs := {[ "/tmp/w9000.out" := sentinel; "/tmp/w9000.err" := "" ]};
     procs := [a_worker]; terminated := ∅; clock := 0%nat;
     start_method := Some "spawn"; trace := [] |}.

End Sample.

(** ** The constructor of the manager *)

Inductive socket_family : Type := AF_INET | AF_UNIX.

(** The attributes that [__init__] sets, [self.workers] apart, which is
    the field [workers] of the state. [self.port] is [-1] or the port
    argument, whose type the constructor does not look at. *)
Record Manager (Port : Type) := {
  self_sock_type : option string;
  self_sock_name : string;
  self_port : Z + Port;
  self_sock : socket_family;
  self_port_num : option Port
}.
Arguments self_sock_type {Port} _.
Arguments self_sock_name {Port} _.
Arguments self_port {Port} _.
Arguments self_sock {Port} _.
Arguments self_port_num {Port} _.

(** [os.remove(path)]; [removable] says which files the operating system
    lets the process unlink. *)
Definition os_remove (removable : string -> bool) (path : string) : M unit :=
  fun st =>
    match fs st !! path with
    | Some _ =>
        if removable path then (Return tt, set_fs (delete path) st)
        else (Raise (OtherError "PermissionError"), st)
    | None => (Raise (FileNotFoundError path), st)
    end.

(** [except OSError]: the two exceptions of [os_remove] are instances. *)
Definition is_OSError (e : exn) : bool :=
  match e with
  | FileNotFoundError _ => true
  | OtherError name => bool_decide (name = "PermissionError")
  | _ => false
  end.

(** [os.path.exists(path)]. *)
Definition os_path_exists (path : string) : M bool := fun st =>
  (Return (bool_decide (is_Some (fs st !! path))), st).

(** The end of [__init__]: the socket object and the empty store. *)
Definition init_attributes {Port} (s_type : option string) (name : string)
    (port : Z + Port) (port_num : option Port) : M (Manager Port) :=
  let socket_family :=
    if bool_decide (s_type = Some "tcp") then AF_INET else AF_UNIX in
  modify (set_workers (fun _ => ∅));;;
  ret {| self_sock_type := s_type; self_sock_name := name; self_port := port;
         self_sock := socket_family; self_port_num := port_num |}.

(** [TorchModelServiceWorkerManager.__init__(self, s_type, s_name,
    host_addr, port_num)]. *)
Definition __init__ {Port} (removable : string -> bool)
    (s_type s_name host_addr : option string) (port_num : option Port)
    : M (Manager Port) :=
  if bool_decide (s_type = Some "unix") then
    match s_name with
    | None =>
        raise (ValueError "Wrong arguments passed. No socket name given.")
    | Some name =>
        try_except (os_remove removable name)
          (fun e =>
             if is_OSError e then
               there <- os_path_exists name;;
               if there : bool
               then raise (RuntimeError
                             ("socket already in use: " +:+ name +:+ "."))
               else ret tt
             else raise e);;;
        init_attributes s_type name (inl (-1)) port_num
    end
  else if bool_decide (s_type = Some "tcp") then
    let name := match host_addr with Some h => h | None => "127.0.0.1" end in
    match port_num with
    | None =>
        raise (ValueError "Wrong arguments passed. No socket port given.")
    | Some p => init_attributes s_type name (inr p) port_num
    end
  else raise (ValueError "Incomplete data provided").

(** ** Vocabulary of the further statements *)

(** The responses among the events of a trace, oldest first. *)
Definition sent (t : list event) : list response :=
  omap (fun e => match e with Send r => Some r | _ => None end) t.

(** The response that a command gets when the loop goes on after it. *)
Definition answers (command : string * Request) (r : response) : Prop :=
  let '(cmd, msg) := command in
  (cmd = "L" /\
   exists name, field_is msg "modelName" name /\
                r = LoadModelResponse 200 ("loaded model " +:+ name)) \/
  (cmd = "U" /\ r = ScaleModelResponse 200 "scaled up") \/
  (cmd = "D" /\ r = ScaleModelResponse 200 "DONE").

(** The metrics stores among the events of a trace, oldest first. *)
Definition emitted (t : list event) : list (list string) :=
  omap (fun e => match e with EmitMetrics ms => Some ms | _ => None end) t.

(** The store that the last statement of the loop body emits for the
    current service, if any. *)
Definition metrics_store_of (service : option Service) : option (list string) :=
  match service with
  | Some s =>
      match context s with
      | Some ctx =>
          match metrics ctx with
          | Some ms => Some (store ms)
          | None => None
          end
      | None => None
      end
  | None => None
  end.

(** Nothing of [st] is taken back in [st']: the ids of the store, the
    started processes, the terminated handles, the events and the time
    of [st] are still there. *)
Definition extends (st st' : State) : Prop :=
  dom (workers st) ⊆ dom (workers st') /\
  procs st `prefix_of` procs st' /\
  terminated st ⊆ terminated st' /\
  trace st `prefix_of` trace st' /\
  (clock st <= clock st')%nat.

(** Every handle in the store and every terminated handle is the handle
    of a started process. *)
Definition handles_valid (st : State) : Prop :=
  (forall id record,
     workers st !! id = Some record ->
     (worker record < length (procs st))%nat) /\
  (forall p, p ∈ terminated st -> (p < length (procs st))%nat).


(** The five fields that [scale_up] reads. *)
Definition scale_up_fields : list string :=
  ["sock_name"; "sock_type"; "host"; "port"; "fifo_path"].

(** ** Built-ins on sample inputs *)

Example decode_ascii : decode (VBytes "9000") = Return "9000".
Proof. reflexivity. Qed.

Example decode_lone_continuation :
  decode (VBytes (String (ascii_of_N 0x80) "")) = Raise UnicodeDecodeError.
Proof. reflexivity. Qed.

Example int_examples :
  int (VBytes " -1_2 ") = Return (-12) /\ int (VBytes "7") = Return 7 /\
  raises (int (VBytes "1__2")) /\ raises (int (VBytes "")) /\
  int (VInt 4) = Return 4.
Proof. vm_compute. repeat split; eauto. Qed.

Example contains_examples :
  contains sentinel "x Torch worker started. y" = true /\
  contains sentinel "Torch worker starte" = false.
Proof. vm_compute. done. Qed.

Example repr_bytes_examples :
  repr_bytes "X" = "b'X'" /\
  repr_bytes (String (ascii_of_N 0) "") = "b'\x00'" /\
  repr_bytes "it's" =
    String "b" (String double_quote ("it's" +:+ String double_quote "")).
Proof. vm_compute. done. Qed.

(** ** The substring test *)



(** ** Scale Down *)

Lemma field_is_decode req key text :
  field_is req key text -> getitem req key ≫= decode = Return text.
Proof.
  intros [Hk Hv]. unfold getitem. rewrite Hk. simpl.
  unfold decode_utf8. by rewrite Hv.
Qed.

(** What [scale_down] computes, case by case. *)
Lemma scale_down_unfold req st :
  scale_down req st =
  match getitem req "port" ≫= decode with
  | Raise e => (Raise e, st)
  | Return port =>
      match workers st !! port with
      | None => (Raise (KeyError port), st)
      | Some record =>
          (Return ("scaled down", 200),
           set_terminated (fun ps => {[worker record]} ∪ ps) st)
      end
  end.
Proof.
  unfold scale_down, try_except, bind, lift, get, raise, terminate, modify, ret.
  destruct (getitem req "port" ≫= decode) as [port|e]; [|done].
  unfold getitem. by destruct (workers st !! port).
Qed.

(** C3 (amended). A Scale Down whose identifier is in the store requests
    termination of the process of that record and returns
    [("scaled down", 200)]; the store is left as it was, the record
    included. *)
Theorem scale_down_registered req id record st :
  field_is req "port" id -> workers st !! id = Some record ->
  exists st',
    scale_down req st = (Return ("scaled down", 200), st') /\
    st' = set_terminated (fun ps => {[worker record]} ∪ ps) st /\
    worker record ∈ terminated st' /\
    workers st' = workers st /\
    workers st' !! id = Some record.
Proof.
  intros Hport Hsome. eexists. split.
  - rewrite scale_down_unfold, (field_is_decode _ _ _ Hport). by rewrite Hsome.
  - split; [reflexivity|]. simpl. split; [set_solver|]. split; done.
Qed.

Section Properties.

Variable model_loader_load :
  string -> string -> option string -> option Z -> option Z -> bool ->
  outcome Service.
Variable TorchModelServiceWorker :
  string -> string -> string -> string -> option Service ->
  option ServiceArgs -> string -> outcome Worker.
Variable environment : State -> gmap string string.

Local Abbreviation Dispatch :=
  (dispatch model_loader_load TorchModelServiceWorker environment).
Local Abbreviation ConnectionLoop :=
  (connection_loop model_loader_load TorchModelServiceWorker environment).

(** The first message of the input decides how the loop goes on. *)
Lemma connection_loop_cons cmd msg rest locals st :
  ConnectionLoop false ((cmd, msg) :: rest) locals st =
  match Dispatch false cmd msg locals st with
  | (Return locals', st') =>
      match emit_metrics_of (fst locals') st' with
      | (Return _, st'') => ConnectionLoop false rest locals' st''
      | (Raise e, st'') => (Raise e, st'')
      end
  | (Raise e, st') => (Raise e, st')
  end.
Proof.
  simpl. unfold bind at 1. simpl. unfold after_retrieve.
  unfold bind at 1. unfold bind at 1.
  destruct (Dispatch false cmd msg locals st) as [[locals'|e] st']; [|done].
  unfold bind at 1.
  destruct (emit_metrics_of (fst locals') st') as [[u|e] st'']; done.
Qed.

(** The branch of Scale Down. *)
Lemma dispatch_scale_down msg locals st :
  Dispatch false "D" msg locals st =
  match scale_down msg st with
  | (Return _, st') =>
      (Return locals,
       set_trace (fun t => (t ++ [Send (ScaleModelResponse 200 "DONE")])%list) st')
  | (Raise e, st') => (Raise e, st')
  end.
Proof.
  destruct locals as [service service_args]. unfold dispatch.
  simpl. unfold bind at 1.
  destruct (scale_down msg st) as [[[result code]|e] st']; done.
Qed.


(** Two extensions of the trace are one. *)
Lemma set_trace_app t1 t2 st :
  set_trace (fun t => (t ++ t2)%list) (set_trace (fun t => (t ++ t1)%list) st) =
  set_trace (fun t => (t ++ (t1 ++ t2))%list) st.
Proof. destruct st. unfold set_trace. simpl. by rewrite <- app_assoc. Qed.

Lemma set_trace_nil st : set_trace (fun t => (t ++ [])%list) st = st.
Proof. destruct st. unfold set_trace. simpl. by rewrite app_nil_r. Qed.

(** With the flag on, the loop touches nothing but the profiler, as long
    as no service has been loaded. *)
Lemma connection_loop_benchmark input service_args st :
  exists t,
    ConnectionLoop true input (None, service_args) st =
      (Return (None, service_args), set_trace (fun t0 => (t0 ++ t)%list) st) /\
    Forall is_profiler_event t.
Proof.
  revert st. induction input as [|[cmd msg] rest IH]; intros st.
  - eexists. split.
    + simpl. unfold bind, emit, modify, ret. simpl. by rewrite set_trace_app.
    + repeat constructor.
  - destruct (IH (set_trace (fun t => (t ++ [ProfilerEnable])%list)
      (set_trace (fun t =>
         (t ++ [ProfilerDumpStats "/tmp/tsPythonProfile.prof"])%list)
        (set_trace (fun t => (t ++ [ProfilerDisable])%list) st))))
      as (t & Ht & Hall).
    eexists. split.
    + simpl. unfold bind, after_retrieve, dispatch, emit, modify, ret. simpl.
      rewrite Ht, !set_trace_app. reflexivity.
    + repeat constructor. exact Hall.
Qed.

(** C1 (the code at the failing input). A Scale Down that names an
    identifier absent from the store does not yield a failure result:
    [scale_down] raises [KeyError], the store and the rest of the state
    are as before, and the exception leaves the connection loop, which
    sends no response. *)
Theorem scale_down_unregistered_raises req id st rest locals :
  field_is req "port" id -> workers st !! id = None ->
  scale_down req st = (Raise (KeyError id), st) /\
  ConnectionLoop false (("D", req) :: rest) locals st =
    (Raise (KeyError id), st).
Proof.
  intros Hport Hnone.
  assert (Hsd : scale_down req st = (Raise (KeyError id), st)).
  { rewrite scale_down_unfold, (field_is_decode _ _ _ Hport). by rewrite Hnone. }
  split; [exact Hsd|].
  by rewrite connection_loop_cons, dispatch_scale_down, Hsd.
Qed.



(** C10. When the environment variable enables the benchmark flag, the
    connection loop of [handle_connection] runs through every decoded
    message, whatever its tag, without raising: the locals stay [None],
    the state changes only by the start method and by profiler events at
    the end of the trace, so that no operation ran and no response or
    metric went out. *)
Theorem benchmark_skips_dispatch ts_benchmark input st :
  BENCHMARK ts_benchmark = true -> start_method st = None ->
  exists t,
    handle_connection model_loader_load TorchModelServiceWorker environment
      (BENCHMARK ts_benchmark) input st =
      (Return (None, None),
       set_trace (fun t0 => (t0 ++ t)%list)
         (set_start_method (fun _ => Some "spawn") st)) /\
    Forall is_profiler_event t.
Proof.
  intros -> Hsm.
  destruct (connection_loop_benchmark input None
              (set_start_method (fun _ => Some "spawn") st)) as (t & Ht & Hall).
  exists t. split; [|exact Hall].
  unfold handle_connection, bind, set_start_method_spawn. by rewrite Hsm.
Qed.

(** *** Load *)

Local Abbreviation LoadModel := (load_model model_loader_load).
Local Abbreviation LoadModelTry := (load_model_try model_loader_load).
Local Abbreviation LoadService := (load_service model_loader_load).

Lemma optional_int_is_read (req : Request) key n :
  optional_int_is req key n ->
  (if has_key req key then Some <$> (getitem req key ≫= int) else Return None)
  = Return n.
Proof.
  unfold optional_int_is, has_key, getitem.
  destruct (req !! key) as [v|] eqn:Hv.
  - intros (z & Hz & ->). rewrite bool_decide_eq_true_2 by eauto.
    simpl. by rewrite Hz.
  - intros ->. rewrite bool_decide_eq_false_2; [done|]. by intros [? ?].
Qed.

Lemma handler_is_read (req : Request) handler :
  handler_is req handler ->
  (handler_field ← getitem req "handler";
   if truthy handler_field then Some <$> decode handler_field else Return None)
  = Return handler.
Proof.
  intros (v & Hv & [[Ht ->]|[Ht (h & Hd & ->)]]);
    unfold getitem; rewrite Hv; simpl; rewrite Ht; [done|]. by rewrite Hd.
Qed.

(** Reading the fields of a well-formed Load command. *)
Lemma load_model_try_fields req name dir handler gpu batch :
  field_is req "modelPath" dir -> field_is req "modelName" name ->
  handler_is req handler ->
  optional_int_is req "batchSize" batch -> optional_int_is req "gpu" gpu ->
  LoadModelTry req = LoadService name dir handler gpu batch.
Proof.
  intros Hdir Hname Hh Hb Hg. unfold load_model_try.
  rewrite (field_is_decode _ _ _ Hdir), (field_is_decode _ _ _ Hname). simpl.
  pose proof (handler_is_read _ _ Hh) as Hh'.
  destruct (getitem req "handler") as [v|e]; simpl in Hh' |- *; [|done].
  rewrite Hh'. simpl.
  rewrite (optional_int_is_read _ _ _ Hb). simpl.
  by rewrite (optional_int_is_read _ _ _ Hg).
Qed.




(** C8 (amended). The GPU index and the batch size may be absent from
    the payload and are then [None] for the loader; the handler is
    [None] when its value is empty, but its key has to be there: without
    it [load_model] raises [KeyError]. *)
Theorem absent_optional_fields req name dir :
  field_is req "modelPath" dir -> field_is req "modelName" name ->
  (forall handler batch,
     req !! "gpu" = None -> handler_is req handler ->
     optional_int_is req "batchSize" batch ->
     LoadModel req = except_MemoryError (LoadService name dir handler None batch)) /\
  (forall handler gpu,
     req !! "batchSize" = None -> handler_is req handler ->
     optional_int_is req "gpu" gpu ->
     LoadModel req = except_MemoryError (LoadService name dir handler gpu None)) /\
  (forall v gpu batch,
     req !! "handler" = Some v -> truthy v = false ->
     optional_int_is req "batchSize" batch -> optional_int_is req "gpu" gpu ->
     LoadModel req = except_MemoryError (LoadService name dir None gpu batch)) /\
  (req !! "handler" = None -> LoadModel req = Raise (KeyError "handler")).
Proof.
  intros Hdir Hname. unfold load_model. repeat split.
  - intros handler batch Hg Hh Hb.
    rewrite (load_model_try_fields _ name dir handler None batch); try done.
    unfold optional_int_is. by rewrite Hg.
  - intros handler gpu Hb Hh Hg.
    rewrite (load_model_try_fields _ name dir handler gpu None); try done.
    unfold optional_int_is. by rewrite Hb.
  - intros v gpu batch Hv Ht Hb Hg.
    rewrite (load_model_try_fields _ name dir None gpu batch); try done.
    exists v. split; [done|]. by left.
  - intros Hnone. unfold load_model_try.
    rewrite (field_is_decode _ _ _ Hdir), (field_is_decode _ _ _ Hname). simpl.
    unfold getitem. by rewrite Hnone.
Qed.

(** *** Scale Up *)

Local Abbreviation ScaleUp :=
  (scale_up TorchModelServiceWorker environment).
Local Abbreviation ScaleUpTry :=
  (scale_up_try TorchModelServiceWorker environment).

Lemma create_fifo_insert file_name st :
  create_fifo file_name st =
  (Return tt, set_fs (fun files => <[file_name := ""]> files) st).
Proof.
  unfold create_fifo, modify, set_fs. do 2 f_equal.
  case_bool_decide; [|done]. by rewrite insert_delete_eq.
Qed.

(** One round of the polling loop. *)
Lemma poll_succ retry fifo_path st :
  poll environment (S retry) fifo_path st =
  let st1 := snd (sleep environment st) in
  match fs st1 !! (fifo_path +:+ ".out") with
  | None => (Raise (FileNotFoundError (fifo_path +:+ ".out")), st1)
  | Some out =>
      if contains sentinel out then (Return (S retry), st1)
      else
        match fs st1 !! (fifo_path +:+ ".err") with
        | None => (Raise (FileNotFoundError (fifo_path +:+ ".err")), st1)
        | Some err =>
            if contains sentinel err then (Return (S retry), st1)
            else poll environment retry fifo_path st1
        end
  end.
Proof.
  simpl. unfold bind at 1. unfold sleep at 1. unfold bind at 1.
  unfold read_file at 1. simpl.
  destruct (environment (set_clock S st) !! (fifo_path +:+ ".out")) as [out|];
    [|done].
  destruct (contains sentinel out); [done|].
  unfold bind at 1. unfold read_file at 1. simpl.
  destruct (environment (set_clock S st) !! (fifo_path +:+ ".err")) as [err|];
    [|done].
  by destruct (contains sentinel err).
Qed.

Lemma after_sleeps_succ k st :
  after_sleeps environment (S k) st =
  after_sleeps environment k (snd (sleep environment st)).
Proof. unfold after_sleeps. by rewrite Nat.iter_succ_r. Qed.

(** Sleeping moves the clock and the files and nothing else. *)
Lemma after_sleeps_frame k st :
  workers (after_sleeps environment k st) = workers st /\
  procs (after_sleeps environment k st) = procs st /\
  terminated (after_sleeps environment k st) = terminated st /\
  trace (after_sleeps environment k st) = trace st /\
  clock (after_sleeps environment k st) = (clock st + k)%nat.
Proof.
  induction k as [|k IH]; simpl.
  - repeat split; lia.
  - destruct IH as (-> & -> & -> & -> & ->). repeat split; lia.
Qed.

(** The loop ends in a state reached by at most [retry] sleeps. *)
Lemma poll_sleeps retry fifo_path st r st' :
  poll environment retry fifo_path st = (r, st') ->
  exists k, (k <= retry)%nat /\ st' = after_sleeps environment k st.
Proof.
  revert st. induction retry as [|retry IH]; intros st.
  - intros [= <- <-]. by exists 0%nat.
  - rewrite poll_succ. cbv zeta.
    assert (Hone : exists k, (k <= S retry)%nat /\
              snd (sleep environment st) = after_sleeps environment k st).
    { exists 1%nat. split; [lia|done]. }
    destruct (fs _ !! (fifo_path +:+ ".out")) as [out|]; [|by intros [= <- <-]].
    destruct (contains sentinel out); [by intros [= <- <-]|].
    destruct (fs _ !! (fifo_path +:+ ".err")) as [err|]; [|by intros [= <- <-]].
    destruct (contains sentinel err); [by intros [= <- <-]|].
    intros Hp. destruct (IH _ Hp) as (k & Hk & ->).
    exists (S k). split; [lia|]. by rewrite after_sleeps_succ.
Qed.



(** The end of the [try] block of [scale_up], from the polling loop on. *)
Lemma bind_lift {A B} (o : outcome A) (f : A -> M B) st :
  bind (lift o) f st =
  match o with
  | Return a => f a st
  | Raise e => (Raise e, st)
  end.
Proof. unfold bind, lift. by destruct o. Qed.

(** A Scale Up command whose five fields decode, and whose worker object
    can be built, reaches the polling loop in the state [spawned]. *)
Lemma scale_up_try_spawned req service service_args st
    sock_name sock_type host port fifo_path w :
  field_is req "sock_name" sock_name -> field_is req "sock_type" sock_type ->
  field_is req "host" host -> field_is req "port" port ->
  field_is req "fifo_path" fifo_path ->
  TorchModelServiceWorker sock_type sock_name host port service service_args
    fifo_path = Return w ->
  ScaleUpTry req service service_args st =
  match poll environment 10 fifo_path (spawned w sock_name port fifo_path st) with
  | (Return retry, st') =>
      if bool_decide (retry = 0%nat)
      then (Raise (Exception "Worker not spawned"), st')
      else (Return ("scaled up", 200), st')
  | (Raise e, st') => (Raise e, st')
  end.
Proof.
  intros Hn Ht Hh Hp Hf Hw. unfold scale_up_try.
  rewrite bind_lift, (field_is_decode _ _ _ Hn).
  rewrite bind_lift, (field_is_decode _ _ _ Ht).
  rewrite bind_lift, (field_is_decode _ _ _ Hh).
  rewrite bind_lift, (field_is_decode _ _ _ Hp).
  rewrite bind_lift, (field_is_decode _ _ _ Hf).
  rewrite bind_lift, Hw.
  unfold bind at 1. rewrite create_fifo_insert.
  unfold bind at 1. rewrite create_fifo_insert.
  unfold bind at 1. unfold start_process at 1.
  unfold bind at 1. unfold modify at 1.
  unfold bind at 1.
  change (set_workers _ _) with (spawned w sock_name port fifo_path st).
  destruct (poll environment 10 fifo_path _) as [[retry|e] st']; [|done].
  unfold raise, ret. by destruct (bool_decide (retry = 0%nat)).
Qed.

(** The [try] block of [scale_up] returns nothing but the success pair,
    and sleeps at most ten times. *)
Lemma scale_up_try_result req service service_args st r st' :
  ScaleUpTry req service service_args st = (r, st') ->
  (r = Return ("scaled up", 200) \/ raises r) /\
  (clock st' <= clock st + 10)%nat /\
  terminated st' = terminated st /\ trace st' = trace st.
Proof.
  unfold scale_up_try.
  rewrite bind_lift.
  destruct (getitem req "sock_name" ≫= decode) as [sock_name|e];
    [|intros [= <- <-]; unfold raises; split; [eauto|split; [lia|done]]].
  rewrite bind_lift.
  destruct (getitem req "sock_type" ≫= decode) as [sock_type|e];
    [|intros [= <- <-]; unfold raises; split; [eauto|split; [lia|done]]].
  rewrite bind_lift.
  destruct (getitem req "host" ≫= decode) as [host|e];
    [|intros [= <- <-]; unfold raises; split; [eauto|split; [lia|done]]].
  rewrite bind_lift.
  destruct (getitem req "port" ≫= decode) as [port|e];
    [|intros [= <- <-]; unfold raises; split; [eauto|split; [lia|done]]].
  rewrite bind_lift.
  destruct (getitem req "fifo_path" ≫= decode) as [fifo_path|e];
    [|intros [= <- <-]; unfold raises; split; [eauto|split; [lia|done]]].
  rewrite bind_lift.
  destruct (TorchModelServiceWorker _ _ _ _ _ _ _) as [w|e];
    [|intros [= <- <-]; unfold raises; split; [eauto|split; [lia|done]]].
  unfold bind at 1. rewrite create_fifo_insert.
  unfold bind at 1. rewrite create_fifo_insert.
  unfold bind at 1. unfold start_process at 1.
  unfold bind at 1. unfold modify at 1.
  unfold bind at 1.
  destruct (poll environment 10 fifo_path _) as [[retry|e] st1] eqn:Hpoll.
  - destruct (poll_sleeps _ _ _ _ _ Hpoll) as (k & Hk & ->).
    unfold raise, ret.
    destruct (bool_decide (retry = 0%nat)); intros [= <- <-];
      (match goal with |- context [after_sleeps environment k ?s] =>
         destruct (after_sleeps_frame k s) as (_ & _ & Hterm & Htr & Hcl) end);
      (split; [first [by left | right; unfold raises; eauto]|]);
      rewrite Hterm, Htr, Hcl; simpl; (split; [lia|done]).
  - destruct (poll_sleeps _ _ _ _ _ Hpoll) as (k & Hk & ->).
    intros [= <- <-].
    match goal with |- context [after_sleeps environment k ?s] =>
      destruct (after_sleeps_frame k s) as (_ & _ & Hterm & Htr & Hcl) end.
    split; [right; unfold raises; eauto|]. rewrite Hterm, Htr, Hcl. simpl.
    split; [lia|done].
Qed.



(** C6 (amended). Scale Up lets no exception out: whatever the command,
    it returns the success pair or [("scale up failed", 500)]. Load
    turns [MemoryError], and nothing else, into a result: any other
    exception of its [try] block reaches the connection loop. *)
Theorem exceptions_caught :
  (forall req service service_args st,
     exists r st',
       scale_up TorchModelServiceWorker environment req service service_args
         st = (Return r, st') /\
       (r = ("scaled up", 200) \/ r = ("scale up failed", 500))) /\
  (forall req,
     load_model_try model_loader_load req = Raise MemoryError ->
     load_model model_loader_load req =
       Return (None, None, "System out of memory", 507)) /\
  (forall req e,
     load_model_try model_loader_load req = Raise e -> e ≠ MemoryError ->
     load_model model_loader_load req = Raise e).
Proof.
  split; [|split].
  - intros req service service_args st. unfold scale_up, try_except.
    destruct (ScaleUpTry req service service_args st) as [[a|e] st1] eqn:E.
    + destruct (scale_up_try_result _ _ _ _ _ _ E) as ([[= ->]|[e He]] & _);
        [|done]. eauto.
    + unfold ret. eauto.
  - intros req Hm. unfold load_model. by rewrite Hm.
  - intros req e He Hne. unfold load_model. rewrite He. by destruct e.
Qed.

(** *** Scale Up: rejected commands, lost files, the store *)

Lemma getitem_decode_inv (req : Request) key text :
  getitem req key ≫= decode = Return text -> field_is req key text.
Proof.
  unfold field_is, getitem.
  destruct (req !! key) as [[b| |]|]; simpl; try done.
  unfold decode_utf8. destruct (utf8_valid b) eqn:Hv; [|done].
  intros [= <-]. by split.
Qed.

(** The [try] block of [scale_up] either reaches the spawn, or raises
    with the state as it found it. *)
Lemma scale_up_try_cases req service service_args st :
  (exists sock_name sock_type host port fifo_path w,
     field_is req "sock_name" sock_name /\ field_is req "sock_type" sock_type /\
     field_is req "host" host /\ field_is req "port" port /\
     field_is req "fifo_path" fifo_path /\
     TorchModelServiceWorker sock_type sock_name host port service
       service_args fifo_path = Return w) \/
  (exists e, ScaleUpTry req service service_args st = (Raise e, st)).
Proof.
  unfold scale_up_try.
  rewrite bind_lift.
  destruct (getitem req "sock_name" ≫= decode) as [sock_name|e] eqn:E1;
    [|right; eauto].
  rewrite bind_lift.
  destruct (getitem req "sock_type" ≫= decode) as [sock_type|e] eqn:E2;
    [|right; eauto].
  rewrite bind_lift.
  destruct (getitem req "host" ≫= decode) as [host|e] eqn:E3; [|right; eauto].
  rewrite bind_lift.
  destruct (getitem req "port" ≫= decode) as [port|e] eqn:E4; [|right; eauto].
  rewrite bind_lift.
  destruct (getitem req "fifo_path" ≫= decode) as [fifo_path|e] eqn:E5;
    [|right; eauto].
  rewrite bind_lift.
  destruct (TorchModelServiceWorker sock_type sock_name host port service
              service_args fifo_path) as [w|e] eqn:E6; [|right; eauto].
  left. exists sock_name, sock_type, host, port, fifo_path, w.
  do 5 (split; [by apply getitem_decode_inv|]). done.
Qed.

(** Where [scale_up] leaves the state: untouched, or some sleeps after
    the spawn. *)
Lemma scale_up_state req service service_args st r st' :
  ScaleUp req service service_args st = (r, st') ->
  (r = Return ("scale up failed", 500) /\ st' = st) \/
  (exists sock_name sock_type host port fifo_path w k,
     field_is req "sock_name" sock_name /\ field_is req "port" port /\
     field_is req "fifo_path" fifo_path /\
     TorchModelServiceWorker sock_type sock_name host port service
       service_args fifo_path = Return w /\
     (k <= 10)%nat /\
     st' = after_sleeps environment k
             (spawned w sock_name port fifo_path st)).
Proof.
  unfold scale_up, try_except.
  destruct (scale_up_try_cases req service service_args st)
    as [(sock_name & sock_type & host & port & fifo_path & w &
         Hn & Ht & Hh & Hp & Hf & Hw)|[e He]].
  - rewrite (scale_up_try_spawned req service service_args st _ _ _ _ _ _
               Hn Ht Hh Hp Hf Hw).
    destruct (poll environment 10 fifo_path _) as [[retry|e] st1] eqn:Hpoll;
      destruct (poll_sleeps _ _ _ _ _ Hpoll) as (k & Hk & ->).
    + destruct (bool_decide (retry = 0%nat)); unfold ret; intros [= <- <-];
        right; by exists sock_name, sock_type, host, port, fifo_path, w, k.
    + unfold ret. intros [= <- <-].
      right; by exists sock_name, sock_type, host, port, fifo_path, w, k.
  - rewrite He. unfold ret. intros [= <- <-]. by left.
Qed.

(** X1. A Scale Up command that lacks one of its five fields, or holds
    there something that is not UTF-8 text, is answered
    [("scale up failed", 500)] with the state untouched: no file is
    created, no process started, no record registered, no time spent. *)
Theorem scale_up_rejected_unchanged req service service_args st key :
  key ∈ scale_up_fields -> (forall text, ~ field_is req key text) ->
  ScaleUp req service service_args st = (Return ("scale up failed", 500), st).
Proof.
  intros Hkey Hnone.
  destruct (scale_up_try_cases req service service_args st)
    as [(sock_name & sock_type & host & port & fifo_path & w &
         Hn & Ht & Hh & Hp & Hf & Hw)|[e He]].
  - exfalso. unfold scale_up_fields in Hkey.
    repeat (apply elem_of_cons in Hkey as [->|Hkey]; [by eapply Hnone|]).
    by apply elem_of_nil in Hkey.
  - unfold scale_up, try_except. by rewrite He.
Qed.









(** *** The connection loop: Load and Scale Up commands *)

Local Abbreviation AfterRetrieve :=
  (after_retrieve model_loader_load TorchModelServiceWorker environment).

(** What a returning [load_service] returns. *)
Lemma load_service_return name dir handler gpu batch service service_args
    result code :
  LoadService name dir handler gpu batch =
    Return (service, service_args, result, code) ->
  code = 200 /\ result = "loaded model " +:+ name.
Proof.
  unfold load_service.
  destruct (model_loader_load name dir handler gpu batch false) as [d|e];
    simpl; [|done].
  destruct (is_eager_of d) as [[|]|e]; simpl; [| |done].
  - destruct (model_loader_load name dir handler gpu batch true) as [d'|e];
      simpl; [|done]. by intros [= <- <- <- <-].
  - by intros [= <- <- <- <-].
Qed.

(** What a returning [load_model] returns: the out-of-memory result, or
    code 200 with the name read off the payload. *)
Lemma load_model_return req service service_args result code :
  LoadModel req = Return (service, service_args, result, code) ->
  (code = 507 /\ result = "System out of memory") \/
  (code = 200 /\
   exists name, field_is req "modelName" name /\
                result = "loaded model " +:+ name).
Proof.
  unfold load_model, except_MemoryError.
  destruct (LoadModelTry req) as [[[[s a] r] c]|e] eqn:E.
  - intros [= <- <- <- <-]. right. revert E. unfold load_model_try.
    destruct (getitem req "modelPath" ≫= decode) as [dir|e]; simpl; [|done].
    destruct (getitem req "modelName" ≫= decode) as [name|e] eqn:Hname;
      simpl; [|done].
    destruct (getitem req "handler") as [h|e]; simpl; [|done].
    destruct (if truthy h then Some <$> decode h else Return None)
      as [handler|e]; simpl; [|done].
    destruct (if has_key req "batchSize"
              then Some <$> (getitem req "batchSize" ≫= int) else Return None)
      as [batch|e]; simpl; [|done].
    destruct (if has_key req "gpu"
              then Some <$> (getitem req "gpu" ≫= int) else Return None)
      as [gpu|e]; simpl; [|done].
    intros E. destruct (load_service_return _ _ _ _ _ _ _ _ _ E) as [-> ->].
    split; [done|]. exists name. split; [by apply getitem_decode_inv|done].
  - destruct e; try done. intros [= <- <- <- <-]. by left.
Qed.

(** The branch of Load. *)
Lemma dispatch_load msg locals st :
  Dispatch false "L" msg locals st =
  match LoadModel msg with
  | Return (service, service_args, result, code) =>
      if bool_decide (code ≠ 200)
      then (Raise (RuntimeError (code_and_result code result)),
            set_trace (fun t => (t ++ [Send (LoadModelResponse code result)])%list)
              st)
      else (Return (service, service_args),
            set_trace (fun t => (t ++ [Send (LoadModelResponse code result)])%list)
              st)
  | Raise e => (Raise e, st)
  end.
Proof.
  destruct locals as [service0 service_args0]. unfold dispatch. simpl.
  rewrite bind_lift.
  destruct (LoadModel msg) as [[[[service service_args] result] code]|e];
    [|done].
  unfold bind, send, modify, raise, ret. by destruct (bool_decide (code ≠ 200)).
Qed.

(** The branch of Scale Up. *)
Lemma dispatch_scale_up msg service service_args st :
  Dispatch false "U" msg (service, service_args) st =
  match ScaleUp msg service service_args st with
  | (Return (result, code), st1) =>
      if bool_decide (code ≠ 200)
      then (Raise (RuntimeError (code_and_result code result)),
            set_trace (fun t => (t ++ [Send (ScaleModelResponse code result)])%list)
              st1)
      else (Return (service, service_args),
            set_trace (fun t => (t ++ [Send (ScaleModelResponse code result)])%list)
              st1)
  | (Raise e, st1) => (Raise e, st1)
  end.
Proof.
  unfold dispatch. simpl. unfold bind at 1.
  destruct (ScaleUp msg service service_args st) as [[[result code]|e] st1];
    [|done].
  unfold bind, send, modify, raise, ret. by destruct (bool_decide (code ≠ 200)).
Qed.

(** [scale_up] returns one of its two pairs and leaves the trace alone. *)
Lemma scale_up_result req service service_args st r st' :
  ScaleUp req service service_args st = (r, st') ->
  (r = Return ("scaled up", 200) \/ r = Return ("scale up failed", 500)) /\
  trace st' = trace st.
Proof.
  unfold scale_up, try_except.
  destruct (ScaleUpTry req service service_args st) as [[a|e] st1] eqn:E;
    destruct (scale_up_try_result _ _ _ _ _ _ E) as (Hr & _ & _ & Htr).
  - intros [= <- <-]. split; [|done].
    destruct Hr as [Hr|[e He]]; [by left|done].
  - unfold ret. intros [= <- <-]. split; [by right|done].
Qed.

(** X5. A Scale Up that fails is still answered: the loop sends the
    response with status 500 and message "scale up failed", and only
    then raises [RuntimeError("500 - scale up failed")]; the commands
    that follow are not looked at. *)
Theorem scale_up_failure_at_loop msg service service_args rest st
    result code st1 :
  ScaleUp msg service service_args st = (Return (result, code), st1) ->
  code ≠ 200 ->
  ConnectionLoop false (("U", msg) :: rest) (service, service_args) st =
    (Raise (RuntimeError "500 - scale up failed"),
     set_trace
       (fun t => (t ++ [Send (ScaleModelResponse 500 "scale up failed")])%list)
       st1).
Proof.
  intros Hup Hcode.
  destruct (scale_up_result _ _ _ _ _ _ Hup) as [[[= -> ->]|[= -> ->]] _];
    [done|].
  rewrite connection_loop_cons, dispatch_scale_up, Hup. reflexivity.
Qed.

(** X6. A Load that runs out of memory is answered with status 507 and
    message "System out of memory", after which the loop raises
    [RuntimeError("507 - System out of memory")]; a Load that fails with
    any other exception gets no response: the exception leaves the loop
    with the state as it was. *)
Theorem load_failure_at_loop msg rest locals st :
  (LoadModelTry msg = Raise MemoryError ->
   ConnectionLoop false (("L", msg) :: rest) locals st =
     (Raise (RuntimeError "507 - System out of memory"),
      set_trace
        (fun t =>
           (t ++ [Send (LoadModelResponse 507 "System out of memory")])%list)
        st)) /\
  (forall e,
     LoadModelTry msg = Raise e -> e ≠ MemoryError ->
     ConnectionLoop false (("L", msg) :: rest) locals st = (Raise e, st)).
Proof.
  split.
  - intros Hm. rewrite connection_loop_cons, dispatch_load.
    unfold load_model. rewrite Hm. reflexivity.
  - intros e He Hne. rewrite connection_loop_cons, dispatch_load.
    unfold load_model. rewrite He. by destruct e.
Qed.

(** *** The connection loop as a whole *)

(** The loop on a non-empty input, with either flag. *)
Lemma connection_loop_step benchmark cmd msg rest locals st :
  ConnectionLoop benchmark ((cmd, msg) :: rest) locals st =
  match before_retrieve benchmark st with
  | (Return _, st0) =>
      match AfterRetrieve benchmark cmd msg locals st0 with
      | (Return locals', st1) => ConnectionLoop benchmark rest locals' st1
      | (Raise e, st1) => (Raise e, st1)
      end
  | (Raise e, st0) => (Raise e, st0)
  end.
Proof.
  simpl. unfold bind at 1.
  destruct (before_retrieve benchmark st) as [[u|e] st0]; [|done].
  unfold bind at 1.
  by destruct (AfterRetrieve benchmark cmd msg locals st0) as [[locals'|e] st1].
Qed.

Lemma connection_loop_nil locals st :
  ConnectionLoop false [] locals st = (Return locals, st).
Proof. reflexivity. Qed.


Lemma emit_metrics_of_trace service st :
  exists t,
    emit_metrics_of service st =
      (Return tt, set_trace (fun t0 => (t0 ++ t)%list) st) /\
    sent t = [].
Proof.
  unfold emit_metrics_of, emit, modify, ret.
  destruct service as [[[[m [ms|]]|]]|];
    first [ by eexists [EmitMetrics _] | exists []; by rewrite set_trace_nil ].
Qed.

Lemma scale_down_trace msg st r st' :
  scale_down msg st = (r, st') -> trace st' = trace st.
Proof.
  rewrite scale_down_unfold.
  destruct (getitem msg "port" ≫= decode) as [port|e]; [|by intros [= <- <-]].
  destruct (workers st !! port); by intros [= <- <-].
Qed.

(** A command after which the loop goes on got its response. *)
Lemma dispatch_return cmd msg locals st locals' st' :
  Dispatch false cmd msg locals st = (Return locals', st') ->
  exists r, trace st' = (trace st ++ [Send r])%list /\ answers (cmd, msg) r.
Proof.
  destruct (decide (cmd = "L")) as [->|HL];
    [|destruct (decide (cmd = "U")) as [->|HU];
      [|destruct (decide (cmd = "D")) as [->|HD]]].
  - rewrite dispatch_load.
    destruct (LoadModel msg) as [[[[service service_args] result] code]|e]
      eqn:E; [|done].
    case_bool_decide as Hc; [done|]. intros [= <- <-].
    assert (code = 200) as -> by (by destruct (decide (code = 200))).
    destruct (load_model_return _ _ _ _ _ E) as [[? _]|(_ & name & Hn & ->)];
      [done|].
    eexists. split; [done|]. left. split; [done|]. by exists name.
  - destruct locals as [service service_args]. rewrite dispatch_scale_up.
    destruct (ScaleUp msg service service_args st) as [[[result code]|e] st1]
      eqn:E; [|done].
    destruct (scale_up_result _ _ _ _ _ _ E) as [[[= -> ->]|[= -> ->]] Htr];
      [|done].
    simpl. intros [= <- <-]. simpl. rewrite Htr.
    eexists. split; [done|]. right. by left.
  - rewrite dispatch_scale_down.
    destruct (scale_down msg st) as [[a|e] st1] eqn:E; [|done].
    intros [= <- <-]. simpl. rewrite (scale_down_trace _ _ _ _ E).
    eexists. split; [done|]. right. by right.
  - destruct locals as [service service_args]. unfold dispatch.
    by rewrite !bool_decide_eq_false_2.
Qed.

(** X8. With the benchmark flag off, a loop that is still waiting for
    commands has sent one response for each command it read, in the
    order of the commands, each with status 200: "loaded model" and the
    name for a Load, "scaled up" for a Scale Up, "DONE" for a Scale
    Down. Nothing else went out on the socket. *)
Theorem one_response_per_command input locals st locals' st' :
  ConnectionLoop false input locals st = (Return locals', st') ->
  exists t,
    trace st' = (trace st ++ t)%list /\ Forall2 answers input (sent t).
Proof.
  revert locals st. induction input as [|[cmd msg] rest IH]; intros locals st.
  - rewrite connection_loop_nil. intros [= <- <-].
    exists []. split; [by rewrite app_nil_r|constructor].
  - rewrite connection_loop_cons.
    destruct (Dispatch false cmd msg locals st) as [[locals1|e] st1] eqn:Hd;
      [|done].
    destruct (dispatch_return _ _ _ _ _ _ Hd) as (r & Htr1 & Hans).
    destruct (emit_metrics_of_trace (fst locals1) st1) as (tm & -> & Hm).
    intros Hloop. destruct (IH _ _ Hloop) as (t & Htr & Hall).
    exists (Send r :: tm ++ t). split.
    + rewrite Htr. simpl. rewrite Htr1, <- !app_assoc. done.
    + unfold sent in *. simpl. rewrite omap_app, Hm. simpl.
      by constructor.
Qed.

(** *** What the loop never takes back *)

Lemma extends_refl st : extends st st.
Proof. by repeat split. Qed.

Lemma extends_trans st1 st2 st3 :
  extends st1 st2 -> extends st2 st3 -> extends st1 st3.
Proof.
  intros (Hw & Hp & Ht & Hr & Hc) (Hw' & Hp' & Ht' & Hr' & Hc').
  repeat split; first [by etrans | lia].
Qed.

(** A step that adds events to the trace and does nothing else. *)
Lemma set_trace_keeps t st :
  extends st (set_trace (fun t0 => (t0 ++ t)%list) st) /\
  (handles_valid st ->
   handles_valid (set_trace (fun t0 => (t0 ++ t)%list) st)).
Proof.
  split; [|done]. repeat split; try done. simpl. by apply prefix_app_r.
Qed.

Lemma keeps_trans st1 st2 st3 :
  extends st1 st2 /\ (handles_valid st1 -> handles_valid st2) ->
  extends st2 st3 /\ (handles_valid st2 -> handles_valid st3) ->
  extends st1 st3 /\ (handles_valid st1 -> handles_valid st3).
Proof.
  intros [He Hv] [He' Hv']. split; [by eapply extends_trans|auto].
Qed.

Lemma scale_down_keeps msg st r st' :
  scale_down msg st = (r, st') ->
  extends st st' /\ (handles_valid st -> handles_valid st').
Proof.
  rewrite scale_down_unfold.
  destruct (getitem msg "port" ≫= decode) as [port|e];
    [|intros [= <- <-]; split; [apply extends_refl|done]].
  destruct (workers st !! port) as [record|] eqn:Hr;
    intros [= <- <-]; [|split; [apply extends_refl|done]].
  split.
  - repeat split; try done. simpl. apply union_subseteq_r.
  - intros [Hw Ht]. split; [exact Hw|]. simpl. intros p Hp.
    apply elem_of_union in Hp as [Hp|Hp]; [|by apply Ht].
    apply elem_of_singleton in Hp as ->. by eapply Hw.
Qed.

Lemma after_sleeps_keeps k st :
  extends st (after_sleeps environment k st) /\
  (handles_valid st -> handles_valid (after_sleeps environment k st)).
Proof.
  destruct (after_sleeps_frame k st) as (Hw & Hp & Ht & Hr & Hc).
  unfold extends, handles_valid. rewrite Hw, Hp, Ht, Hr, Hc.
  split; [|done]. repeat split; try done. lia.
Qed.

Lemma spawned_keeps w sock_name port fifo_path st :
  extends st (spawned w sock_name port fifo_path st) /\
  (handles_valid st -> handles_valid (spawned w sock_name port fifo_path st)).
Proof.
  split.
  - repeat split; simpl; try done.
    + apply dom_insert_subseteq.
    + by apply prefix_app_r.
  - intros [Hw Ht]. split; simpl.
    + intros id record Hrec. rewrite length_app. simpl.
      destruct (decide (worker_id_of sock_name port = id)) as [<-|Hne].
      * rewrite lookup_insert_eq in Hrec. injection Hrec as <-. simpl. lia.
      * rewrite lookup_insert_ne in Hrec by done.
        specialize (Hw _ _ Hrec). lia.
    + intros p Hp. rewrite length_app. specialize (Ht _ Hp). lia.
Qed.

Lemma scale_up_keeps req service service_args st r st' :
  ScaleUp req service service_args st = (r, st') ->
  extends st st' /\ (handles_valid st -> handles_valid st').
Proof.
  intros Hup.
  destruct (scale_up_state _ _ _ _ _ _ Hup)
    as [[_ ->]|(sock_name & sock_type & host & port & fifo_path & w & k &
                _ & _ & _ & _ & _ & ->)].
  - split; [apply extends_refl|done].
  - eapply keeps_trans; [apply spawned_keeps|apply after_sleeps_keeps].
Qed.

Lemma dispatch_keeps benchmark cmd msg locals st r st' :
  Dispatch benchmark cmd msg locals st = (r, st') ->
  extends st st' /\ (handles_valid st -> handles_valid st').
Proof.
  destruct benchmark.
  { destruct locals as [service service_args]. unfold dispatch.
    unfold bind, emit, modify, ret. intros [= <- <-]. apply set_trace_keeps. }
  destruct (decide (cmd = "L")) as [->|HL];
    [|destruct (decide (cmd = "U")) as [->|HU];
      [|destruct (decide (cmd = "D")) as [->|HD]]].
  - rewrite dispatch_load.
    destruct (LoadModel msg) as [[[[service service_args] result] code]|e];
      [|intros [= <- <-]; split; [apply extends_refl|done]].
    destruct (bool_decide (code ≠ 200)); intros [= <- <-];
      apply set_trace_keeps.
  - destruct locals as [service service_args]. rewrite dispatch_scale_up.
    destruct (ScaleUp msg service service_args st) as [[[result code]|e] st1]
      eqn:E; pose proof (scale_up_keeps _ _ _ _ _ _ E) as Hk.
    + destruct (bool_decide (code ≠ 200)); intros [= <- <-];
        (eapply keeps_trans; [exact Hk|apply set_trace_keeps]).
    + by intros [= <- <-].
  - rewrite dispatch_scale_down.
    destruct (scale_down msg st) as [[a|e] st1] eqn:E;
      pose proof (scale_down_keeps _ _ _ _ E) as Hk; intros [= <- <-];
      [|done].
    eapply keeps_trans; [exact Hk|apply set_trace_keeps].
  - destruct locals as [service service_args]. unfold dispatch.
    rewrite !bool_decide_eq_false_2 by done.
    intros [= <- <-]. split; [apply extends_refl|done].
Qed.

Lemma emit_metrics_of_keeps service st r st' :
  emit_metrics_of service st = (r, st') ->
  extends st st' /\ (handles_valid st -> handles_valid st').
Proof.
  destruct (emit_metrics_of_trace service st) as (t & -> & _).
  intros [= <- <-]. apply set_trace_keeps.
Qed.

Lemma before_retrieve_keeps benchmark st r st' :
  before_retrieve benchmark st = (r, st') ->
  extends st st' /\ (handles_valid st -> handles_valid st').
Proof.
  destruct benchmark; unfold before_retrieve, bind, emit, modify, ret;
    intros [= <- <-]; [|split; [apply extends_refl|done]].
  eapply keeps_trans; apply set_trace_keeps.
Qed.

Lemma connection_loop_keeps benchmark input locals st r st' :
  ConnectionLoop benchmark input locals st = (r, st') ->
  extends st st' /\ (handles_valid st -> handles_valid st').
Proof.
  revert locals st. induction input as [|[cmd msg] rest IH]; intros locals st.
  - simpl. unfold bind at 1.
    destruct (before_retrieve benchmark st) as [[u|e] st0] eqn:Hb;
      pose proof (before_retrieve_keeps _ _ _ _ Hb) as Hk;
      unfold ret; by intros [= <- <-].
  - rewrite connection_loop_step.
    destruct (before_retrieve benchmark st) as [[u|e] st0] eqn:Hb;
      pose proof (before_retrieve_keeps _ _ _ _ Hb) as Hk0;
      [|by intros [= <- <-]].
    unfold after_retrieve. unfold bind at 1.
    destruct (Dispatch benchmark cmd msg locals st0) as [[locals1|e] st1]
      eqn:Hd; pose proof (dispatch_keeps _ _ _ _ _ _ _ Hd) as Hk1;
      [|intros [= <- <-]; by eapply keeps_trans].
    unfold bind at 1.
    destruct (emit_metrics_of (fst locals1) st1) as [[u'|e] st2] eqn:Hm;
      pose proof (emit_metrics_of_keeps _ _ _ _ Hm) as Hk2;
      [|intros [= <- <-]; eapply keeps_trans; [|exact Hk2];
        by eapply keeps_trans].
    unfold ret. intros Hloop. pose proof (IH _ _ Hloop) as Hk3.
    eapply keeps_trans; [|exact Hk3].
    eapply keeps_trans; [|exact Hk2]. by eapply keeps_trans.
Qed.

(** X9. Whatever commands arrive, with either flag and however the loop
    ends, nothing is taken back: every id of the store is still in the
    store, every started process is still in the table at its place,
    every handle that was terminated still is, the events sent so far
    are still the beginning of the trace, and the clock did not go
    back. In particular no command removes a record from the store. *)
Theorem connection_loop_extends benchmark input locals st r st' :
  ConnectionLoop benchmark input locals st = (r, st') -> extends st st'.
Proof. intros Hloop. by destruct (connection_loop_keeps _ _ _ _ _ _ Hloop). Qed.

(** X10. If every handle in the store and every terminated handle is
    the handle of a started process, the same holds after the loop, on
    any input and however it ends: [terminate()] is only called on
    processes that the manager started. *)
Theorem connection_loop_handles_valid benchmark input locals st r st' :
  handles_valid st ->
  ConnectionLoop benchmark input locals st = (r, st') ->
  handles_valid st'.
Proof.
  intros Hv Hloop. destruct (connection_loop_keeps _ _ _ _ _ _ Hloop); auto.
Qed.


(** *** Scale Down after Scale Up, and the sentinel in the text *)



(** *** Metrics, and the fields of Load *)

Lemma emit_metrics_of_store service st :
  emit_metrics_of service st =
  (Return tt,
   set_trace (fun t0 =>
     (t0 ++ match metrics_store_of service with
            | Some ms => [EmitMetrics ms]
            | None => []
            end)%list) st).
Proof.
  unfold emit_metrics_of, metrics_store_of, emit, modify, ret.
  destruct service as [[[[m [ms|]]|]]|]; by rewrite ?set_trace_nil.
Qed.

(** Scale Up and Scale Down give back the locals they were given. *)
Lemma dispatch_scale_locals cmd msg locals st locals' st' :
  cmd ≠ "L" ->
  Dispatch false cmd msg locals st = (Return locals', st') ->
  locals' = locals /\ exists r, trace st' = (trace st ++ [Send r])%list.
Proof.
  intros HL Hd.
  destruct (dispatch_return _ _ _ _ _ _ Hd) as (r & Htr & _).
  split; [|eauto]. revert Hd.
  destruct (decide (cmd = "U")) as [->|HU];
    [|destruct (decide (cmd = "D")) as [->|HD]].
  - destruct locals as [service service_args]. rewrite dispatch_scale_up.
    destruct (ScaleUp msg service service_args st) as [[[result code]|e] st1];
      [|done].
    by destruct (bool_decide (code ≠ 200)); intros [= <- <-].
  - rewrite dispatch_scale_down.
    destruct (scale_down msg st) as [[a|e] st1]; by intros [= <- <-].
  - destruct locals as [service service_args]. unfold dispatch.
    by rewrite !bool_decide_eq_false_2.
Qed.

(** X17. Scale Up and Scale Down leave the current service alone: on a
    connection without Load commands, with the benchmark flag off, a
    loop that is still waiting holds the service and parameters it
    started with; if that service has a metrics store, the store was
    emitted once after each command, and if not, nothing was emitted. *)
Theorem metrics_without_load input locals st locals' st' :
  Forall (fun command => command.1 ≠ "L") input ->
  ConnectionLoop false input locals st = (Return locals', st') ->
  locals' = locals /\
  exists t,
    trace st' = (trace st ++ t)%list /\
    emitted t =
      match metrics_store_of (fst locals) with
      | Some ms => replicate (length input) ms
      | None => []
      end.
Proof.
  revert st. induction input as [|[cmd msg] rest IH]; intros st Hno.
  - rewrite connection_loop_nil. intros [= <- <-]. split; [done|].
    exists []. split; [by rewrite app_nil_r|]. by destruct (metrics_store_of _).
  - apply Forall_cons in Hno as [HL Hrest]. simpl in HL.
    rewrite connection_loop_cons.
    destruct (Dispatch false cmd msg locals st) as [[locals1|e] st1] eqn:Hd;
      [|done].
    destruct (dispatch_scale_locals _ _ _ _ _ _ HL Hd) as (-> & r & Htr1).
    rewrite emit_metrics_of_store. intros Hloop.
    destruct (IH _ Hrest Hloop) as (-> & t & Htr & Hem).
    split; [done|]. eexists. split.
    + rewrite Htr. simpl. rewrite Htr1, <- !app_assoc. reflexivity.
    + unfold emitted in *. rewrite !omap_app, Hem. simpl.
      by destruct (metrics_store_of (fst locals)).
Qed.

(** X18. [load_model] reads its fields before it calls the loader, and
    a field it cannot read makes it raise, since only [MemoryError] is
    handled: a payload without the model path or without the model name
    gives [KeyError]; an integer field that is present but does not
    convert, be it [None] or bytes that are no decimal number, gives
    the [TypeError] or [ValueError] of [int]. *)
Theorem load_model_field_errors req :
  (req !! "modelPath" = None -> LoadModel req = Raise (KeyError "modelPath")) /\
  (forall dir,
     field_is req "modelPath" dir -> req !! "modelName" = None ->
     LoadModel req = Raise (KeyError "modelName")) /\
  (forall dir name handler v e,
     field_is req "modelPath" dir -> field_is req "modelName" name ->
     handler_is req handler ->
     req !! "batchSize" = Some v -> int v = Raise e ->
     LoadModel req = Raise e /\
     (e = TypeError \/ exists msg, e = ValueError msg)) /\
  (forall dir name handler batch v e,
     field_is req "modelPath" dir -> field_is req "modelName" name ->
     handler_is req handler -> optional_int_is req "batchSize" batch ->
     req !! "gpu" = Some v -> int v = Raise e ->
     LoadModel req = Raise e /\
     (e = TypeError \/ exists msg, e = ValueError msg)).
Proof.
  assert (Hint : forall v e, int v = Raise e ->
            e = TypeError \/ exists msg, e = ValueError msg).
  { intros [b|n|] e; simpl; [|done|by intros [= <-]; left].
    destruct (int_of_bytes b); [done|]. intros [= <-]. right. eauto. }
  unfold load_model, load_model_try. split; [|split; [|split]].
  - intros Hnone. unfold getitem. by rewrite Hnone.
  - intros dir Hdir Hnone. rewrite (field_is_decode _ _ _ Hdir). simpl.
    unfold getitem. by rewrite Hnone.
  - intros dir name handler v e Hdir Hname Hh Hv He.
    split; [|by eapply Hint].
    rewrite (field_is_decode _ _ _ Hdir), (field_is_decode _ _ _ Hname). simpl.
    pose proof (handler_is_read _ _ Hh) as Hh'.
    destruct (getitem req "handler") as [h|e']; simpl in Hh' |- *; [|done].
    rewrite Hh'. simpl. unfold has_key, getitem. rewrite Hv.
    rewrite (bool_decide_eq_true_2 (is_Some (Some v))) by (by eexists).
    simpl. rewrite He. simpl.
    by destruct (Hint _ _ He) as [->|[msg ->]].
  - intros dir name handler batch v e Hdir Hname Hh Hb Hv He.
    split; [|by eapply Hint].
    rewrite (field_is_decode _ _ _ Hdir), (field_is_decode _ _ _ Hname). simpl.
    pose proof (handler_is_read _ _ Hh) as Hh'.
    destruct (getitem req "handler") as [h|e']; simpl in Hh' |- *; [|done].
    rewrite Hh'. simpl. rewrite (optional_int_is_read _ _ _ Hb). simpl.
    unfold has_key, getitem. rewrite Hv.
    rewrite (bool_decide_eq_true_2 (is_Some (Some v))) by (by eexists).
    simpl. rewrite He. simpl.
    by destruct (Hint _ _ He) as [->|[msg ->]].
Qed.

(** X19. A descriptor without context, and one whose manifest is not
    empty but has no model section, do not count as scripted models:
    on a Load command whose fields are well formed, [load_model] raises
    [AttributeError] for the first and [KeyError("model")] for the
    second, and the loader is not asked to materialise anything. *)
Theorem load_model_manifest_errors req name dir handler gpu batch d :
  field_is req "modelPath" dir -> field_is req "modelName" name ->
  handler_is req handler ->
  optional_int_is req "batchSize" batch -> optional_int_is req "gpu" gpu ->
  model_loader_load name dir handler gpu batch false = Return d ->
  (context d = None -> LoadModel req = Raise (AttributeError "manifest")) /\
  (forall ctx m,
     context d = Some ctx -> manifest ctx = Some m -> m ≠ ∅ ->
     m !! "model" = None ->
     LoadModel req = Raise (KeyError "model")).
Proof.
  intros Hdir Hname Hh Hb Hg Hd. unfold load_model.
  rewrite (load_model_try_fields _ _ _ _ _ _ Hdir Hname Hh Hb Hg).
  unfold load_service. rewrite Hd. simpl. unfold is_eager_of. split.
  - by intros ->.
  - intros ctx m -> -> Hne Hnone.
    rewrite bool_decide_eq_false_2 by done.
    unfold getitem. by rewrite Hnone.
Qed.

End Properties.

(** ** Scale Down again, and the constructor *)

(** X14. A Scale Down can be repeated: after a Scale Down for an id of
    the store, a second one for the same id returns
    [("scaled down", 200)] again and leaves the state exactly as the
    first left it; the same process gets its second termination
    request. *)
Theorem scale_down_again req id record st :
  field_is req "port" id -> workers st !! id = Some record ->
  exists st1,
    scale_down req st = (Return ("scaled down", 200), st1) /\
    scale_down req st1 = (Return ("scaled down", 200), st1).
Proof.
  intros Hport Hrec.
  exists (set_terminated (fun ps => {[worker record]} ∪ ps) st).
  rewrite !scale_down_unfold, (field_is_decode _ _ _ Hport). simpl.
  rewrite Hrec. split; [done|]. unfold set_terminated. simpl.
  by rewrite (assoc_L (∪)), (idemp_L (∪)).
Qed.

(** What [__init__] does with a socket name. *)
Lemma init_unix {Port} removable name host_addr (port_num : option Port) st :
  __init__ removable (Some "unix") (Some name) host_addr port_num st =
  match fs st !! name with
  | Some _ =>
      if removable name
      then (Return {| self_sock_type := Some "unix"; self_sock_name := name;
                      self_port := inl (-1); self_sock := AF_UNIX;
                      self_port_num := port_num |},
            set_workers (fun _ => ∅) (set_fs (delete name) st))
      else (Raise (RuntimeError ("socket already in use: " +:+ name +:+ ".")),
            st)
  | None =>
      (Return {| self_sock_type := Some "unix"; self_sock_name := name;
                 self_port := inl (-1); self_sock := AF_UNIX;
                 self_port_num := port_num |},
       set_workers (fun _ => ∅) st)
  end.
Proof.
  unfold __init__. simpl. unfold bind at 1, try_except, os_remove.
  destruct (fs st !! name) as [text|] eqn:Hfile.
  - destruct (removable name); [done|]. simpl.
    unfold bind, os_path_exists. by rewrite Hfile.
  - simpl. unfold bind, os_path_exists. by rewrite Hfile.
Qed.


(** X16. A manager that the constructor returns starts with an empty
    store. For "unix" no file is left at the socket name, the other
    files are as before, and the port is [-1]; for "tcp" no file is
    touched, the port is the one given, and the host is the one given
    or else 127.0.0.1. *)
Theorem init_success {Port} removable s_type s_name host_addr
    (port_num : option Port) st manager st' :
  __init__ removable s_type s_name host_addr port_num st
    = (Return manager, st') ->
  workers st' = ∅ /\ procs st' = procs st /\
  self_sock_type manager = s_type /\ self_port_num manager = port_num /\
  ((s_type = Some "unix" /\ self_sock manager = AF_UNIX /\
    self_port manager = inl (-1) /\ s_name = Some (self_sock_name manager) /\
    fs st' = delete (self_sock_name manager) (fs st)) \/
   (s_type = Some "tcp" /\ self_sock manager = AF_INET /\
    (exists p, port_num = Some p /\ self_port manager = inr p) /\
    self_sock_name manager =
      match host_addr with Some h => h | None => "127.0.0.1" end /\
    fs st' = fs st)).
Proof.
  destruct (decide (s_type = Some "unix")) as [->|Hu].
  - destruct s_name as [name|]; [|done]. rewrite init_unix.
    destruct (fs st !! name) as [text|] eqn:Hfile;
      [destruct (removable name); [|done]|]; intros [= <- <-]; simpl;
      (do 4 (split; [done|])); left; (do 4 (split; [done|])); [done|].
    symmetry. by apply delete_id.
  - destruct (decide (s_type = Some "tcp")) as [->|Ht].
    + destruct port_num as [p|]; [|done]. intros [= <- <-]. simpl.
      do 4 (split; [done|]). right. do 2 (split; [done|]).
      split; [by exists p|done].
    + unfold __init__. by rewrite !bool_decide_eq_false_2 by done.
Qed.

(** ** The statements on sample inputs *)

Lemma sample_port : field_is Sample.scale_down_request "port" "9000".
Proof. split; reflexivity. Qed.

Lemma sample_load_fields :
  field_is Sample.load_request "modelPath" "/models/squeezenet" /\
  field_is Sample.load_request "modelName" "squeezenet" /\
  handler_is Sample.load_request None /\
  optional_int_is Sample.load_request "batchSize" (Some 4) /\
  optional_int_is Sample.load_request "gpu" None.
Proof.
  split; [by split|]. split; [by split|]. split.
  - exists (VBytes ""). split; [reflexivity|]. by left.
  - split; [|reflexivity]. exists 4. by split.
Qed.


(** Scenario E, and the second Scale Down for the same id. *)
Example scale_down_twice :
  exists st1 st2,
    scale_down Sample.scale_down_request Sample.one_worker =
      (Return ("scaled down", 200), st1) /\
    scale_down Sample.scale_down_request st1 =
      (Return ("scaled down", 200), st2) /\
    terminated st2 = {[0%nat]} /\ workers st2 = workers Sample.one_worker.
Proof. eexists _, _. repeat split; by vm_compute. Qed.

Lemma scale_down_unregistered_raises_witness :
  field_is Sample.scale_down_request "port" "9000" /\
  workers initial_state !! "9000" = None /\
  scale_down Sample.scale_down_request initial_state =
    (Raise (KeyError "9000"), initial_state) /\
  connection_loop (Sample.loader Sample.scripted_manifest) Sample.new_worker
    Sample.silent false [("D", Sample.scale_down_request)] (None, None)
    initial_state = (Raise (KeyError "9000"), initial_state).
Proof.
  split; [exact sample_port|]. split; [reflexivity|].
  exact (scale_down_unregistered_raises
           (Sample.loader Sample.scripted_manifest) Sample.new_worker
           Sample.silent Sample.scale_down_request "9000" initial_state []
           (None, None) sample_port eq_refl).
Defined.



(** C3 (as stated) fails: after this Scale Down the record of the
    identifier is still in the store. *)
Lemma scale_down_removes_record_counterexample :
  field_is Sample.scale_down_request "port" "9000" /\
  is_Some (workers Sample.one_worker !! "9000") /\
  fst (scale_down Sample.scale_down_request Sample.one_worker)
    = Return ("scaled down", 200) /\
  workers (snd (scale_down Sample.scale_down_request Sample.one_worker))
    !! "9000" ≠ None.
Proof.
  split; [exact sample_port|].
  split; [by exists {| worker := 0%nat; fifo := "/tmp/w9000" |}|].
  split; by vm_compute.
Qed.

Lemma scale_down_registered_witness :
  field_is Sample.scale_down_request "port" "9000" /\
  workers Sample.one_worker !! "9000"
    = Some {| worker := 0%nat; fifo := "/tmp/w9000" |} /\
  exists st',
    scale_down Sample.scale_down_request Sample.one_worker =
      (Return ("scaled down", 200), st') /\
    st' = set_terminated (fun ps => {[0%nat]} ∪ ps) Sample.one_worker /\
    0%nat ∈ terminated st' /\
    workers st' = workers Sample.one_worker /\
    workers st' !! "9000" = Some {| worker := 0%nat; fifo := "/tmp/w9000" |}.
Proof.
  split; [exact sample_port|]. split; [reflexivity|].
  exact (scale_down_registered Sample.scale_down_request "9000"
           {| worker := 0%nat; fifo := "/tmp/w9000" |} Sample.one_worker
           sample_port eq_refl).
Defined.



Lemma benchmark_skips_dispatch_witness :
  BENCHMARK (Some "true") = true /\
  start_method initial_state = None /\
  exists t,
    handle_connection (Sample.loader Sample.eager_manifest) Sample.new_worker
      Sample.silent (BENCHMARK (Some "true"))
      [("L", Sample.load_request); ("U", Sample.scale_up_request);
       ("D", Sample.scale_down_request); ("X", ∅)] initial_state =
      (Return (None, None),
       set_trace (fun t0 => (t0 ++ t)%list)
         (set_start_method (fun _ => Some "spawn") initial_state)) /\
    Forall is_profiler_event t.
Proof.
  split; [reflexivity|]. split; [reflexivity|].
  exact (benchmark_skips_dispatch
           (Sample.loader Sample.eager_manifest) Sample.new_worker
           Sample.silent (Some "true")
           [("L", Sample.load_request); ("U", Sample.scale_up_request);
            ("D", Sample.scale_down_request); ("X", ∅)] initial_state
           eq_refl eq_refl).
Defined.


(** C8 (as stated) fails: a Load request with valid path and name and
    no handler key in the payload makes [load_model] raise. *)
Lemma absent_handler_counterexample :
  field_is Sample.load_request_no_handler "modelPath" "/models/squeezenet" /\
  field_is Sample.load_request_no_handler "modelName" "squeezenet" /\
  Sample.load_request_no_handler !! "handler" = None /\
  load_model (Sample.loader Sample.scripted_manifest)
    Sample.load_request_no_handler = Raise (KeyError "handler").
Proof. repeat split; by vm_compute. Qed.

Lemma absent_optional_fields_witness :
  (field_is Sample.load_request "modelPath" "/models/squeezenet" /\
   field_is Sample.load_request "modelName" "squeezenet" /\
   Sample.load_request !! "gpu" = None /\
   Sample.load_request !! "handler" = Some (VBytes "") /\
   truthy (VBytes "") = false) /\
  load_model (Sample.loader Sample.scripted_manifest) Sample.load_request =
    except_MemoryError
      (load_service (Sample.loader Sample.scripted_manifest)
         "squeezenet" "/models/squeezenet" None None (Some 4)) /\
  (field_is Sample.load_request_no_handler "modelPath" "/models/squeezenet" /\
   field_is Sample.load_request_no_handler "modelName" "squeezenet" /\
   Sample.load_request_no_handler !! "batchSize" = None /\
   Sample.load_request_no_handler !! "handler" = None) /\
  load_model (Sample.loader Sample.scripted_manifest)
    Sample.load_request_no_handler = Raise (KeyError "handler").
Proof.
  destruct sample_load_fields as (Hdir & Hname & Hh & Hb & Hg).
  split; [by repeat split|]. split.
  - exact (proj1 (absent_optional_fields
                    (Sample.loader Sample.scripted_manifest)
                    Sample.load_request _ _ Hdir Hname)
             None (Some 4) eq_refl Hh Hb).
  - split; [by repeat split|].
    refine (proj2 (proj2 (proj2 (absent_optional_fields
                    (Sample.loader Sample.scripted_manifest)
                    Sample.load_request_no_handler
                    "squeezenet" "/models/squeezenet" _ _))) eq_refl);
      by split.
Defined.

(** C6 (as stated) fails: on this well-formed Load command the loader
    finds no archive, and its exception leaves [load_model]. *)
Lemma load_exception_escapes_counterexample :
  (field_is Sample.load_request "modelPath" "/models/squeezenet" /\
   field_is Sample.load_request "modelName" "squeezenet" /\
   handler_is Sample.load_request None /\
   optional_int_is Sample.load_request "batchSize" (Some 4) /\
   optional_int_is Sample.load_request "gpu" None) /\
  load_model Sample.loader_no_archive Sample.load_request =
    Raise (FileNotFoundError "/models/squeezenet").
Proof. split; [exact sample_load_fields|by vm_compute]. Qed.

Lemma exceptions_caught_witness :
  (exists r st',
     scale_up Sample.new_worker Sample.silent ∅ None None initial_state
       = (Return r, st') /\
     (r = ("scaled up", 200) \/ r = ("scale up failed", 500))) /\
  (load_model_try Sample.loader_out_of_memory Sample.load_request
     = Raise MemoryError /\
   load_model Sample.loader_out_of_memory Sample.load_request
     = Return (None, None, "System out of memory", 507)) /\
  (load_model_try Sample.loader_no_archive Sample.load_request
     = Raise (FileNotFoundError "/models/squeezenet") /\
   FileNotFoundError "/models/squeezenet" ≠ MemoryError /\
   load_model Sample.loader_no_archive Sample.load_request
     = Raise (FileNotFoundError "/models/squeezenet")).
Proof.
  split; [|split].
  - exact (proj1 (exceptions_caught Sample.loader_no_archive Sample.new_worker
                    Sample.silent) ∅ None None initial_state).
  - split; [by vm_compute|].
    apply (proj1 (proj2 (exceptions_caught Sample.loader_out_of_memory
                           Sample.new_worker Sample.silent))).
    by vm_compute.
  - split; [by vm_compute|]. split; [done|].
    apply (proj2 (proj2 (exceptions_caught Sample.loader_no_archive
                           Sample.new_worker Sample.silent)));
      [by vm_compute|done].
Defined.




(** ** The further statements on sample inputs *)

Lemma scale_up_rejected_unchanged_witness :
  ("fifo_path" ∈ scale_up_fields /\
   forall text,
     ~ field_is (delete "fifo_path" Sample.scale_up_request) "fifo_path" text) /\
  scale_up Sample.new_worker Sample.silent
    (delete "fifo_path" Sample.scale_up_request) None None Sample.one_worker
    = (Return ("scale up failed", 500), Sample.one_worker).
Proof.
  assert (Hkey : "fifo_path" ∈ scale_up_fields /\
                 forall text,
                   ~ field_is (delete "fifo_path" Sample.scale_up_request)
                       "fifo_path" text).
  { split; [unfold scale_up_fields; do 4 right; left|].
    intros text [Hfield _]. vm_compute in Hfield. discriminate Hfield. }
  split; [exact Hkey|].
  exact (scale_up_rejected_unchanged Sample.new_worker Sample.silent
           _ None None Sample.one_worker "fifo_path"
           (proj1 Hkey) (proj2 Hkey)).
Defined.




Lemma scale_up_failure_at_loop_witness :
  scale_up Sample.new_worker Sample.silent Sample.scale_up_request None None
    initial_state =
    (Return ("scale up failed", 500),
     snd (scale_up Sample.new_worker Sample.silent Sample.scale_up_request
            None None initial_state)) /\
  500 ≠ 200 /\
  connection_loop (Sample.loader Sample.scripted_manifest) Sample.new_worker
    Sample.silent false
    [("U", Sample.scale_up_request); ("D", Sample.scale_down_request)]
    (None, None) initial_state =
    (Raise (RuntimeError "500 - scale up failed"),
     set_trace
       (fun t => (t ++ [Send (ScaleModelResponse 500 "scale up failed")])%list)
       (snd (scale_up Sample.new_worker Sample.silent Sample.scale_up_request
               None None initial_state))).
Proof.
  assert (Hrun : scale_up Sample.new_worker Sample.silent
                   Sample.scale_up_request None None initial_state =
                 (Return ("scale up failed", 500),
                  snd (scale_up Sample.new_worker Sample.silent
                         Sample.scale_up_request None None initial_state)))
    by (by vm_compute).
  split; [exact Hrun|]. split; [done|].
  exact (scale_up_failure_at_loop (Sample.loader Sample.scripted_manifest)
           Sample.new_worker Sample.silent Sample.scale_up_request None None
           [("D", Sample.scale_down_request)] initial_state _ _ _
           Hrun ltac:(done)).
Defined.

Lemma load_failure_at_loop_witness :
  (load_model_try Sample.loader_out_of_memory Sample.load_request
     = Raise MemoryError /\
   connection_loop Sample.loader_out_of_memory Sample.new_worker Sample.silent
     false [("L", Sample.load_request)] (None, None) initial_state =
     (Raise (RuntimeError "507 - System out of memory"),
      set_trace
        (fun t =>
           (t ++ [Send (LoadModelResponse 507 "System out of memory")])%list)
        initial_state)) /\
  (load_model_try Sample.loader_no_archive Sample.load_request
     = Raise (FileNotFoundError "/models/squeezenet") /\
   FileNotFoundError "/models/squeezenet" ≠ MemoryError /\
   connection_loop Sample.loader_no_archive Sample.new_worker Sample.silent
     false [("L", Sample.load_request)] (None, None) initial_state =
     (Raise (FileNotFoundError "/models/squeezenet"), initial_state)).
Proof.
  split.
  - split; [by vm_compute|].
    apply (proj1 (load_failure_at_loop Sample.loader_out_of_memory
                    Sample.new_worker Sample.silent Sample.load_request []
                    (None, None) initial_state)).
    by vm_compute.
  - split; [by vm_compute|]. split; [done|].
    apply (proj2 (load_failure_at_loop Sample.loader_no_archive
                    Sample.new_worker Sample.silent Sample.load_request []
                    (None, None) initial_state)); [by vm_compute|done].
Defined.

(** A Load, a Scale Up whose worker is ready in the third second, and a
    Scale Down, on one connection. *)
Lemma one_response_per_command_witness :
  exists locals' st',
    connection_loop (Sample.loader Sample.scripted_manifest) Sample.new_worker
      (Sample.ready_in_3 "/tmp/w9000.out") false
      [("L", Sample.load_request); ("U", Sample.scale_up_request);
       ("D", Sample.scale_down_request)] (None, None) Sample.one_worker
      = (Return locals', st') /\
    exists t,
      trace st' = (trace Sample.one_worker ++ t)%list /\
      Forall2 answers
        [("L", Sample.load_request); ("U", Sample.scale_up_request);
         ("D", Sample.scale_down_request)] (sent t).
Proof.
  destruct (connection_loop (Sample.loader Sample.scripted_manifest)
              Sample.new_worker (Sample.ready_in_3 "/tmp/w9000.out") false
              [("L", Sample.load_request); ("U", Sample.scale_up_request);
               ("D", Sample.scale_down_request)] (None, None)
              Sample.one_worker) as [[locals'|e] st'] eqn:Hrun.
  - exists locals', st'. split; [reflexivity|].
    exact (one_response_per_command _ _ _ _ _ _ _ _ Hrun).
  - vm_compute in Hrun. discriminate Hrun.
Defined.

Lemma connection_loop_extends_witness :
  extends Sample.one_worker
    (snd (connection_loop (Sample.loader Sample.scripted_manifest)
            Sample.new_worker Sample.silent false
            [("D", Sample.scale_down_request); ("U", Sample.scale_up_request);
             ("L", Sample.load_request)] (None, None) Sample.one_worker)).
Proof.
  exact (connection_loop_extends (Sample.loader Sample.scripted_manifest)
           Sample.new_worker Sample.silent false _ _ _ _ _
           (surjective_pairing _)).
Defined.

Lemma sample_handles_valid : handles_valid Sample.one_worker.
Proof.
  split.
  - intros id record Hrec. simpl in Hrec.
    apply lookup_singleton_Some in Hrec as [_ <-]. simpl. lia.
  - intros p Hp. simpl in Hp. by apply not_elem_of_empty in Hp.
Qed.

Lemma connection_loop_handles_valid_witness :
  handles_valid Sample.one_worker /\
  handles_valid
    (snd (connection_loop (Sample.loader Sample.scripted_manifest)
            Sample.new_worker Sample.silent false
            [("D", Sample.scale_down_request); ("U", Sample.scale_up_request);
             ("L", Sample.load_request)] (None, None) Sample.one_worker)).
Proof.
  split; [exact sample_handles_valid|].
  exact (connection_loop_handles_valid (Sample.loader Sample.scripted_manifest)
           Sample.new_worker Sample.silent false _ _ _ _ _
           sample_handles_valid (surjective_pairing _)).
Defined.




Lemma scale_down_again_witness :
  field_is Sample.scale_down_request "port" "9000" /\
  workers Sample.one_worker !! "9000"
    = Some {| worker := 0%nat; fifo := "/tmp/w9000" |} /\
  exists st1,
    scale_down Sample.scale_down_request Sample.one_worker =
      (Return ("scaled down", 200), st1) /\
    scale_down Sample.scale_down_request st1 =
      (Return ("scaled down", 200), st1).
Proof.
  split; [exact sample_port|]. split; [reflexivity|].
  exact (scale_down_again Sample.scale_down_request "9000"
           {| worker := 0%nat; fifo := "/tmp/w9000" |} Sample.one_worker
           sample_port eq_refl).
Defined.


Lemma init_success_witness :
  __init__ (fun _ => true) (Some "unix") (Some "/tmp/w9000.out") None
    (Some 9000) Sample.one_worker =
    (Return {| self_sock_type := Some "unix";
               self_sock_name := "/tmp/w9000.out"; self_port := inl (-1);
               self_sock := AF_UNIX; self_port_num := Some 9000 |},
     set_workers (fun _ => ∅)
       (set_fs (delete "/tmp/w9000.out") Sample.one_worker)) /\
  workers (set_workers (fun _ => ∅)
             (set_fs (delete "/tmp/w9000.out") Sample.one_worker)) = ∅ /\
  fs (set_workers (fun _ => ∅)
        (set_fs (delete "/tmp/w9000.out") Sample.one_worker))
    !! "/tmp/w9000.out" = None.
Proof.
  assert (Hrun : __init__ (fun _ => true) (Some "unix")
                   (Some "/tmp/w9000.out") None (Some 9000) Sample.one_worker =
                 (Return {| self_sock_type := Some "unix";
                            self_sock_name := "/tmp/w9000.out";
                            self_port := inl (-1); self_sock := AF_UNIX;
                            self_port_num := Some 9000 |},
                  set_workers (fun _ => ∅)
                    (set_fs (delete "/tmp/w9000.out") Sample.one_worker)))
    by (by vm_compute).
  split; [exact Hrun|].
  destruct (init_success _ _ _ _ _ _ _ _ Hrun)
    as (Hempty & _ & _ & _ & [(_ & _ & _ & _ & Hfs)|(Htcp & _)]);
    [|discriminate Htcp].
  split; [exact Hempty|]. rewrite Hfs. apply lookup_delete_eq.
Defined.

(** An eager service with metrics, then two Scale Downs. *)
Lemma metrics_without_load_witness :
  Forall (fun command : string * Request => command.1 ≠ "L")
    [("D", Sample.scale_down_request); ("D", Sample.scale_down_request)] /\
  exists locals' st',
    connection_loop (Sample.loader Sample.eager_manifest) Sample.new_worker
      Sample.silent false
      [("D", Sample.scale_down_request); ("D", Sample.scale_down_request)]
      (Some {| context := Some {| manifest := None;
                                  metrics := Some {| store := ["m1"] |} |} |},
       None) Sample.one_worker = (Return locals', st') /\
    exists t,
      trace st' = (trace Sample.one_worker ++ t)%list /\
      emitted t = [["m1"]; ["m1"]].
Proof.
  assert (Hno : Forall (fun command : string * Request => command.1 ≠ "L")
                  [("D", Sample.scale_down_request);
                   ("D", Sample.scale_down_request)])
    by (by repeat constructor).
  split; [exact Hno|].
  destruct (connection_loop (Sample.loader Sample.eager_manifest)
              Sample.new_worker Sample.silent false
              [("D", Sample.scale_down_request);
               ("D", Sample.scale_down_request)]
              (Some {| context := Some {| manifest := None;
                                          metrics := Some {| store := ["m1"] |} |} |},
               None) Sample.one_worker) as [[locals'|e] st'] eqn:Hrun.
  - exists locals', st'. split; [reflexivity|].
    exact (proj2 (metrics_without_load _ _ _ _ _ _ _ _ Hno Hrun)).
  - vm_compute in Hrun. discriminate Hrun.
Defined.

(** The docstring's [None] for the gpu of a CPU model. *)
Lemma load_model_field_errors_witness :
  (<["gpu" := VNone]> Sample.load_request !! "gpu" = Some VNone /\
   int VNone = Raise TypeError) /\
  load_model (Sample.loader Sample.scripted_manifest)
    (<["gpu" := VNone]> Sample.load_request) = Raise TypeError /\
  (∅ : Request) !! "modelPath" = None /\
  load_model (Sample.loader Sample.scripted_manifest) ∅
    = Raise (KeyError "modelPath").
Proof.
  split; [by split|]. split.
  - refine (proj1 (proj2 (proj2 (proj2 (load_model_field_errors
                     (Sample.loader Sample.scripted_manifest)
                     (<["gpu" := VNone]> Sample.load_request))))
                     "/models/squeezenet" "squeezenet" None (Some 4) VNone
                     TypeError _ _ _ _ eq_refl eq_refl)).
    + by split.
    + by split.
    + exists (VBytes ""). split; [reflexivity|]. by left.
    + exists 4. by split.
  - split; [reflexivity|].
    exact (proj1 (load_model_field_errors
                    (Sample.loader Sample.scripted_manifest) ∅) eq_refl).
Defined.

Lemma load_model_manifest_errors_witness :
  load_model (Sample.loader {[ "runtime" := {[ "type" := "python" ]} ]})
    Sample.load_request = Raise (KeyError "model") /\
  load_model (fun _ _ _ _ _ _ => Return {| context := None |})
    Sample.load_request = Raise (AttributeError "manifest").
Proof.
  destruct sample_load_fields as (Hdir & Hname & Hh & Hb & Hg).
  split.
  - refine (proj2 (load_model_manifest_errors
                     (Sample.loader {[ "runtime" := {[ "type" := "python" ]} ]})
                     Sample.load_request _ _ _ _ _ _ Hdir Hname Hh Hb Hg
                     eq_refl) _ _ eq_refl eq_refl _ eq_refl).
    intros Hempty. apply (f_equal (fun m => m !! "runtime")) in Hempty.
    vm_compute in Hempty. discriminate Hempty.
  - exact (proj1 (load_model_manifest_errors
                    (fun _ _ _ _ _ _ => Return {| context := None |})
                    Sample.load_request _ _ _ _ _ _ Hdir Hname Hh Hb Hg
                    eq_refl) eq_refl).
Defined.
